(** * tap-facebook-pages: a shallow embedding of [streams.py]

    The Python values the tap manipulates (response JSON, partition and
    state dicts, request parameters) are modelled by [json]; a Python dict
    is an association list in insertion order, with the assignment,
    [update] and [pop] of Python dicts.  Exceptions are values of [exn],
    carried by the error monad [res]; a generator is modelled by [gen]: the
    rows yielded so far and the exception that stopped it, if any. *)

From Stdlib Require Import ZArith String Ascii List Bool Lia.
Import ListNotations.
Open Scope string_scope.
Open Scope Z_scope.

(** ** Python values *)

Set Warnings "-register-all".

Inductive json : Type :=
| JNull
| JBool (b : bool)
| JInt (z : Z)
| JStr (s : string)
| JList (l : list json)
| JDict (d : list (string * json)).

Definition dict := list (string * json).

(** Python exceptions raised by the code. *)
Inductive exn : Type :=
| KeyError (k : string)
| TypeError
| ValueError
| IndexError
| AttributeError
| RuntimeError
| HTTPError.

Inductive res (A : Type) : Type :=
| Ok (a : A)
| Err (e : exn).
Arguments Ok {A} a.
Arguments Err {A} e.

Definition bind {A B} (m : res A) (f : A -> res B) : res B :=
  match m with Ok a => f a | Err e => Err e end.

Notation "'let*' x ':=' m 'in' f" := (bind m (fun x => f))
  (at level 200, x name, m at level 100, f at level 200).

(** ** Dict operations *)

Fixpoint dict_get (k : string) (d : dict) : option json :=
  match d with
  | [] => None
  | (k', v) :: t => if String.eqb k k' then Some v else dict_get k t
  end.

(** [d[k] = v]: replaces the value in place, or appends a new key. *)
Fixpoint dict_set (k : string) (v : json) (d : dict) : dict :=
  match d with
  | [] => [(k, v)]
  | (k', v') :: t =>
      if String.eqb k k' then (k, v) :: t else (k', v') :: dict_set k v t
  end.

(** [d.update(e)]: the keys of [e] assigned in order. *)
Definition dict_update (d e : dict) : dict :=
  fold_left (fun acc kv => dict_set (fst kv) (snd kv) acc) e d.

Definition dict_mem (k : string) (d : dict) : bool :=
  match dict_get k d with Some _ => true | None => false end.

(** [d.pop(k)] (no default): [KeyError] on a missing key.  A Python dict
    holds each key once, so dropping every entry for [k] drops that one. *)
Definition dict_pop (k : string) (d : dict) : res dict :=
  if dict_mem k d
  then Ok (filter (fun kv => negb (String.eqb (fst kv) k)) d)
  else Err (KeyError k).

(** ** String helpers *)

Fixpoint prefixb (p s : string) : bool :=
  match p, s with
  | EmptyString, _ => true
  | String a p', String b s' => Ascii.eqb a b && prefixb p' s'
  | _, _ => false
  end.

(** [p in s] for Python strings. *)
Fixpoint substrb (p s : string) : bool :=
  prefixb p s ||
  match s with EmptyString => false | String _ s' => substrb p s' end.

(** [s.split(c, 1)]: [None] when [c] does not occur. *)
Fixpoint split_once (c : ascii) (s : string) : option (string * string) :=
  match s with
  | EmptyString => None
  | String a s' =>
      if Ascii.eqb a c then Some (EmptyString, s')
      else match split_once c s' with
           | Some (l, r) => Some (String a l, r)
           | None => None
           end
  end.

(** [s.split(c)]. *)
Fixpoint split_all (c : ascii) (s : string) : list string :=
  match s with
  | EmptyString => [EmptyString]
  | String a s' =>
      let parts := split_all c s' in
      if Ascii.eqb a c then EmptyString :: parts
      else match parts with
           | p :: ps => String a p :: ps
           | [] => [String a EmptyString]
           end
  end.

(** [sep.join(l)]. *)
Fixpoint join (sep : string) (l : list string) : string :=
  match l with
  | [] => EmptyString
  | [x] => x
  | x :: t => x ++ sep ++ join sep t
  end.

(** ** Python operations on values *)

(** Truthiness: [bool(x)]. *)
Definition truthy (j : json) : bool :=
  match j with
  | JNull => false
  | JBool b => b
  | JInt z => negb (z =? 0)
  | JStr s => negb (String.eqb s EmptyString)
  | JList l => match l with [] => false | _ => true end
  | JDict d => match d with [] => false | _ => true end
  end.

(** [k in x] for a string [k]. *)
Definition py_in (k : string) (x : json) : res bool :=
  match x with
  | JDict d => Ok (dict_mem k d)
  | JList l => Ok (existsb (fun y => match y with JStr s => String.eqb s k | _ => false end) l)
  | JStr s => Ok (substrb k s)
  | _ => Err TypeError
  end.

(** [x[k]] for a string key [k]. *)
Definition getitem (x : json) (k : string) : res json :=
  match x with
  | JDict d => match dict_get k d with Some v => Ok v | None => Err (KeyError k) end
  | _ => Err TypeError
  end.

(** [x[0]]. *)
Definition first_item (x : json) : res json :=
  match x with
  | JList (v :: _) => Ok v
  | JList [] => Err IndexError
  | JStr (String a _) => Ok (JStr (String a EmptyString))
  | JStr EmptyString => Err IndexError
  | _ => Err TypeError
  end.

(** [for v in x]: the values iterated over. *)
Fixpoint str_chars (s : string) : list json :=
  match s with
  | EmptyString => []
  | String a s' => JStr (String a EmptyString) :: str_chars s'
  end.

Definition py_iter (x : json) : res (list json) :=
  match x with
  | JList l => Ok l
  | JDict d => Ok (map (fun kv => JStr (fst kv)) d)
  | JStr s => Ok (str_chars s)
  | _ => Err TypeError
  end.

(** [x.update(e)] on a dict [x]. *)
Definition py_update (x : json) (e : dict) : res dict :=
  match x with
  | JDict d => Ok (dict_update d e)
  | _ => Err AttributeError
  end.

(** *** [int(x)] *)

Definition is_digit (a : ascii) : bool :=
  let n := nat_of_ascii a in (48 <=? n)%nat && (n <=? 57)%nat.

Definition is_space (a : ascii) : bool :=
  let n := nat_of_ascii a in
  (n =? 32)%nat || ((9 <=? n)%nat && (n <=? 13)%nat).

Fixpoint lstrip (s : string) : string :=
  match s with
  | String a s' => if is_space a then lstrip s' else s
  | EmptyString => EmptyString
  end.

Fixpoint rev_str (s : string) (acc : string) : string :=
  match s with
  | EmptyString => acc
  | String a s' => rev_str s' (String a acc)
  end.

Definition strip (s : string) : string :=
  rev_str (lstrip (rev_str (lstrip s) EmptyString)) EmptyString.

(** Digits with single underscores between them, as [int] accepts;
    [acc] is the value read so far, [prev_digit] whether the last
    character read was a digit. *)
Fixpoint read_digits (s : string) (acc : Z) (prev_digit : bool) : option Z :=
  match s with
  | EmptyString => if prev_digit then Some acc else None
  | String a s' =>
      if is_digit a
      then read_digits s' (10 * acc + Z.of_nat (nat_of_ascii a - 48)) true
      else if Ascii.eqb a "_"%char && prev_digit
           then match s' with
                | String b _ => if is_digit b then read_digits s' acc false else None
                | EmptyString => None
                end
           else None
  end.

Definition parse_int_str (s : string) : option Z :=
  match strip s with
  | String "-" s' => option_map Z.opp (read_digits s' 0 false)
  | String "+" s' => read_digits s' 0 false
  | s' => read_digits s' 0 false
  end.

Definition py_int (x : json) : res Z :=
  match x with
  | JInt z => Ok z
  | JBool b => Ok (if b then 1 else 0)
  | JStr s => match parse_int_str s with Some z => Ok z | None => Err ValueError end
  | _ => Err TypeError
  end.

(** *** [str(n)] for an integer *)

Fixpoint digits_pos (fuel : nat) (n : Z) (acc : string) : string :=
  match fuel with
  | O => acc
  | S f =>
      let d := String (ascii_of_nat (Z.to_nat (n mod 10) + 48)) acc in
      if n <? 10 then d else digits_pos f (n / 10) d
  end.

Definition str_of_Z (z : Z) : string :=
  if z <? 0 then String "-" (digits_pos (Z.to_nat (Z.log2 (- z)) + 1) (- z) EmptyString)
  else digits_pos (Z.to_nat (Z.log2 z) + 1) z EmptyString.

(** ** URLs: [urllib.parse] *)

Definition hex_val (a : ascii) : option nat :=
  let n := nat_of_ascii a in
  if (48 <=? n)%nat && (n <=? 57)%nat then Some (n - 48)%nat
  else if (65 <=? n)%nat && (n <=? 70)%nat then Some (n - 55)%nat
  else if (97 <=? n)%nat && (n <=? 102)%nat then Some (n - 87)%nat
  else None.

(** [unquote(s)]: each [%XX] with two hex digits becomes the byte [XX];
    strings are byte strings here, so a valid UTF-8 escape decodes to the
    same bytes as in Python. *)
Fixpoint unquote (s : string) : string :=
  match s with
  | EmptyString => EmptyString
  | String "%" s' =>
      match s' with
      | String h1 (String h2 rest) =>
          match hex_val h1, hex_val h2 with
          | Some a, Some b => String (ascii_of_nat (16 * a + b)) (unquote rest)
          | _, _ => String "%" (unquote s')
          end
      | _ => String "%" (unquote s')
      end
  | String a s' => String a (unquote s')
  end.

Fixpoint plus_to_space (s : string) : string :=
  match s with
  | EmptyString => EmptyString
  | String a s' => String (if Ascii.eqb a "+"%char then " "%char else a) (plus_to_space s')
  end.

(** [unquote(s.replace('+', ' '))], as [parse_qsl] decodes names and values. *)
Definition unquote_plus (s : string) : string := unquote (plus_to_space s).

Fixpoint remove_unsafe (s : string) : string :=
  match s with
  | EmptyString => EmptyString
  | String a s' =>
      let n := nat_of_ascii a in
      if (n =? 9)%nat || (n =? 10)%nat || (n =? 13)%nat then remove_unsafe s'
      else String a (remove_unsafe s')
  end.

Fixpoint lstrip_c0 (s : string) : string :=
  match s with
  | String a s' => if (nat_of_ascii a <=? 32)%nat then lstrip_c0 s' else s
  | EmptyString => EmptyString
  end.

(** [urlparse(url).query]: control characters and leading blanks dropped,
    the fragment after the first [#] cut off, then what follows the first
    [?]. *)
Definition url_query (url : string) : string :=
  let u := remove_unsafe (lstrip_c0 url) in
  let u := match split_once "#" u with Some (l, _) => l | None => u end in
  match split_once "?" u with Some (_, q) => q | None => EmptyString end.

(** [parse_qsl(qs)] with [keep_blank_values=False]: fields split on [&],
    fields without [=] or with an empty value skipped. *)
Definition parse_qsl (qs : string) : list (string * string) :=
  flat_map
    (fun nv =>
       match split_once "=" nv with
       | Some (n, v) =>
           if String.eqb v EmptyString then [] else [(unquote_plus n, unquote_plus v)]
       | None => []
       end)
    (filter (fun nv => negb (String.eqb nv EmptyString)) (split_all "&" qs)).

(** [parse_qs(qs)]: a dict from each name, in order of first occurrence,
    to the list of its values. *)
Definition parse_qs (qs : string) : dict :=
  fold_left
    (fun acc nv =>
       match dict_get (fst nv) acc with
       | Some (JList vs) => dict_set (fst nv) (JList (app vs [JStr (snd nv)])) acc
       | _ => dict_set (fst nv) (JList [JStr (snd nv)]) acc
       end)
    (parse_qsl qs) [].

(** ** Generators *)

(** The rows a generator yielded, and the exception that ended it (if any). *)
Definition gen : Type := (list json * option exn)%type.

Definition gdone : gen := ([], None).
Definition gyield (x : json) : gen := ([x], None).
Definition graise (e : exn) : gen := ([], Some e).

(** Run [g1], then (if it did not raise) [g2]. *)
Definition gseq (g1 g2 : gen) : gen :=
  match g1 with
  | (xs, Some e) => (xs, Some e)
  | (xs, None) => let (ys, o) := g2 in (app xs ys, o)
  end.

(** A generator step that may raise before it yields. *)
Definition glet {A} (m : res A) (k : A -> gen) : gen :=
  match m with Ok a => k a | Err e => graise e end.

(** [for x in l: body(x)]. *)
Fixpoint gfor {A} (l : list A) (body : A -> gen) : gen :=
  match l with
  | [] => gdone
  | x :: t => gseq (body x) (gfor t body)
  end.

(** ** Equality [==] of Python values

    Dicts are compared entry by entry in insertion order; pagination tokens,
    the only values the code compares, are strings or [None]. *)
Fixpoint json_eqb (a b : json) : bool :=
  match a, b with
  | JNull, JNull => true
  | JBool x, JBool y => Bool.eqb x y
  | JBool x, JInt y | JInt y, JBool x => (if x then 1 else 0) =? y
  | JInt x, JInt y => x =? y
  | JStr x, JStr y => String.eqb x y
  | JList xs, JList ys =>
      (fix go (xs ys : list json) : bool :=
         match xs, ys with
         | [], [] => true
         | x :: xs', y :: ys' => json_eqb x y && go xs' ys'
         | _, _ => false
         end) xs ys
  | JDict xs, JDict ys =>
      (fix go (xs ys : list (string * json)) : bool :=
         match xs, ys with
         | [], [] => true
         | (k, x) :: xs', (k', y) :: ys' => String.eqb k k' && json_eqb x y && go xs' ys'
         | _, _ => false
         end) xs ys
  | _, _ => false
  end.

(** [x[k] = v] on a dict. *)
Definition setitem (x : json) (k : string) (v : json) : res dict :=
  match x with
  | JDict d => Ok (dict_set k v d)
  | _ => Err TypeError
  end.

(** [x.pop(k)] on a dict: the dict left. *)
Definition py_pop (x : json) (k : string) : res dict :=
  match x with
  | JDict d => dict_pop k d
  | _ => Err AttributeError
  end.

(** [urlparse(x)] needs a string. *)
Definition as_str (x : json) : res string :=
  match x with
  | JStr s => Ok s
  | _ => Err AttributeError
  end.

(** ** Streams *)

Inductive stream : Type :=
| Page
| Posts
| PostTaggedProfile
| PostAttachments
| PageInsights
| PostInsights.

Definition BASE_URL : string := "https://graph.facebook.com/v10.0/{page_id}".

Definition path (s : stream) : string :=
  match s with
  | Page => ""
  | Posts | PostTaggedProfile | PostAttachments => "/posts"
  | PageInsights => "/insights"
  | PostInsights => "/published_posts"
  end.

(** The tap configuration read by the streams: the class-level table
    [access_tokens], the [metrics] list, [config['columns']] when present,
    and the keys of the stream schema's [properties]. *)
Record config : Type := {
  access_tokens : dict;
  metrics : list string;
  columns : option (list string);
  schema_keys : list string
}.

(** *** [get_url_params]

    [starting] is what the SDK's [get_starting_timestamp(partition)]
    returned, as [int(starting_datetime.timestamp())]; [now] is
    [int(t.time())]. *)

(** [FacebookPagesStream.get_url_params] *)
Definition base_get_url_params (cfg : config) (starting : option Z)
    (partition tok : json) : res dict :=
  let* pid := getitem partition "page_id" in
  if truthy tok then
    let* u := as_str tok in Ok (parse_qs (url_query u))
  else
    let params := match starting with
                  | Some ts => dict_set "since" (JInt ts) []
                  | None => []
                  end in
    (* a page id that is not a string is not a key of the table, and the
       log line's string concatenation then raises *)
    let* params := match pid with
                   | JStr p =>
                       Ok match dict_get p cfg.(access_tokens) with
                          | Some v => dict_set "access_token" v params
                          | None => params
                          end
                   | _ => Err TypeError
                   end in
    Ok (dict_set "limit" (JInt 100) params).

Definition fields_list (cfg : config) : string :=
  match cfg.(columns) with
  | Some cols => join "," cols
  | None => join "," cfg.(schema_keys)
  end.

(** [PageInsights.get_url_params] *)
Definition page_insights_get_url_params (cfg : config) (now : Z) (starting : option Z)
    (partition tok : json) : res dict :=
  let* params := base_get_url_params cfg starting partition tok in
  let time := now in
  let day := 86400 in
  let* params :=
    if negb (truthy tok) then
      let* since := getitem (JDict params) "since" in
      let* until := match since with
                    | JInt s => Ok (s + 8035200)
                    | _ => Err TypeError
                    end in
      Ok (dict_set "until" (JInt (if until <=? time then until else time - day)) params)
    else
      let* ul := getitem (JDict params) "until" in
      let* until := first_item ul in
      let* n := py_int until in
      if n >? time then
        match ul with
        | JList (_ :: rest) =>
            Ok (dict_set "until" (JList (JStr (str_of_Z (time - day)) :: rest)) params)
        | _ => Err TypeError
        end
      else Ok params in
  Ok (dict_set "metric" (JStr (join "," cfg.(metrics))) params).

Definition get_url_params (cfg : config) (s : stream) (now : Z) (starting : option Z)
    (partition tok : json) : res dict :=
  match s with
  | Page =>
      let* params := base_get_url_params cfg starting partition tok in
      Ok (dict_set "fields" (JStr (fields_list cfg)) params)
  | Posts =>
      let* params := base_get_url_params cfg starting partition tok in
      if truthy tok then Ok params
      else Ok (dict_set "fields" (JStr (fields_list cfg)) params)
  | PostTaggedProfile =>
      let* params := base_get_url_params cfg starting partition tok in
      if truthy tok then Ok params
      else Ok (dict_set "fields" (JStr "id,created_time,to") params)
  | PostAttachments =>
      let* params := base_get_url_params cfg starting partition tok in
      if truthy tok then Ok params
      else Ok (dict_set "fields" (JStr "id,created_time,attachments") params)
  | PageInsights => page_insights_get_url_params cfg now starting partition tok
  | PostInsights =>
      let* params := base_get_url_params cfg starting partition tok in
      if truthy tok then Ok params
      else Ok (dict_set "fields"
                 (JStr ("id,created_time,insights.metric(" ++ join "," cfg.(metrics) ++ ")"))
                 params)
  end.

(** *** [get_next_page_token] *)

(** [FacebookPagesStream.get_next_page_token]; [JNull] is [None]. *)
Definition base_get_next_page_token (resp_json : json) : res json :=
  let* has_paging := py_in "paging" resp_json in
  if has_paging then
    let* paging := getitem resp_json "paging" in
    let* has_next := py_in "next" paging in
    if has_next then getitem paging "next" else Ok JNull
  else Ok JNull.

(** [PageInsights.get_next_page_token] *)
Definition page_insights_get_next_page_token (now : Z) (resp_json : json) : res json :=
  let* has_paging := py_in "paging" resp_json in
  if has_paging then
    let* paging := getitem resp_json "paging" in
    let* has_next := py_in "next" paging in
    if has_next then
      let time := now in
      let day := 172800 in
      let* nxt := getitem paging "next" in
      let* u := as_str nxt in
      let params := JDict (parse_qs (url_query u)) in
      let* since := let* l := getitem params "since" in
                    let* x := first_item l in py_int x in
      let* until := let* l := getitem params "until" in
                    let* x := first_item l in py_int x in
      if (since >=? time - day) || ((until >=? time) && (until <=? time + day))
      then Ok JNull
      else getitem paging "next"
    else Ok JNull
  else Ok JNull.

(** The [previous_token] argument is not read by either version. *)
Definition get_next_page_token (s : stream) (now : Z) (resp_json _previous : json) : res json :=
  match s with
  | PageInsights => page_insights_get_next_page_token now resp_json
  | _ => base_get_next_page_token resp_json
  end.

(** *** [parse_response] (generators; [pid] is [self.page_id]) *)

Definition data_rows (resp_json : json) : res (list json) :=
  let* d := getitem resp_json "data" in py_iter d.

(** [Posts.parse_response] *)
Definition posts_parse_response (pid resp_json : json) : gen :=
  glet (data_rows resp_json) (fun rows =>
  gfor rows (fun row =>
    glet (setitem row "page_id" pid) (fun row' => gyield (JDict row')))).

(** The [parent_info] dict of a post row. *)
Definition parent_info (pid row : json) : res dict :=
  let* post_id := getitem row "id" in
  let* created := getitem row "created_time" in
  Ok [("page_id", pid); ("post_id", post_id); ("post_created_time", created)].

(** [x.update(info); yield x] *)
Definition tag_and_yield (info : dict) (x : json) : gen :=
  glet (py_update x info) (fun x' => gyield (JDict x')).

(** [PostTaggedProfile.parse_response] *)
Definition post_tagged_profile_parse_response (pid resp_json : json) : gen :=
  glet (data_rows resp_json) (fun rows =>
  gfor rows (fun row =>
    glet (parent_info pid row) (fun info =>
    glet (py_in "to" row) (fun has_to =>
    if has_to then
      glet (let* t := getitem row "to" in let* d := getitem t "data" in py_iter d) (fun tos =>
      gfor tos (tag_and_yield info))
    else gdone)))).

(** The body of the loop over [row["attachments"]["data"]]. *)
Definition attachment_rows (info : dict) (attachment : json) : gen :=
  glet (py_in "subattachments" attachment) (fun has_sub =>
  if has_sub then
    gseq
      (glet (let* sa := getitem attachment "subattachments" in
             let* d := getitem sa "data" in py_iter d) (fun subs =>
       gfor subs (tag_and_yield info)))
      (glet (py_pop attachment "subattachments") (fun a =>
       tag_and_yield info (JDict a)))
  else tag_and_yield info attachment).

(** [PostAttachments.parse_response] *)
Definition post_attachments_parse_response (pid resp_json : json) : gen :=
  glet (data_rows resp_json) (fun rows =>
  gfor rows (fun row =>
    glet (parent_info pid row) (fun info =>
    glet (py_in "attachments" row) (fun has_att =>
    if has_att then
      glet (let* a := getitem row "attachments" in let* d := getitem a "data" in py_iter d)
        (fun atts => gfor atts (attachment_rows info))
    else gdone)))).

(** The body of the loop over [row["values"]] of [PageInsights]. *)
Definition page_insights_values_rows (base_item : dict) (values : json) : gen :=
  glet (getitem values "value") (fun v =>
  match v with
  | JDict kvs =>
      gfor kvs (fun kv =>
        glet (getitem values "end_time") (fun end_time =>
        gyield (JDict (dict_update [("context", JStr (fst kv)); ("value", snd kv);
                                    ("end_time", end_time)] base_item))))
  | _ => tag_and_yield base_item values
  end).

(** [PageInsights.parse_response] *)
Definition page_insights_parse_response (resp_json : json) : gen :=
  glet (data_rows resp_json) (fun rows =>
  gfor rows (fun row =>
    glet (let* name := getitem row "name" in
          let* period := getitem row "period" in
          let* title := getitem row "title" in
          let* id := getitem row "id" in
          Ok [("name", name); ("period", period); ("title", title); ("id", id)])
      (fun base_item =>
    glet (py_in "values" row) (fun has_values =>
    if has_values then
      glet (let* v := getitem row "values" in py_iter v) (fun vs =>
      gfor vs (page_insights_values_rows base_item))
    else gdone)))).

(** The body of the loop over [insights["values"]] of [PostInsights]. *)
Definition post_insights_values_rows (base_item : dict) (values : json) : gen :=
  glet (getitem values "value") (fun v =>
  match v with
  | JDict kvs =>
      gfor kvs (fun kv =>
        gyield (JDict (dict_update [("context", JStr (fst kv)); ("value", snd kv)] base_item)))
  | _ => tag_and_yield base_item values
  end).

(** The [base_item] of one insight metric of a post. *)
Definition post_insights_base_item (pid row insights : json) : res dict :=
  let* post_id := getitem row "id" in
  let* created := getitem row "created_time" in
  let* name := getitem insights "name" in
  let* period := getitem insights "period" in
  let* title := getitem insights "title" in
  let* description := getitem insights "description" in
  let* id := getitem insights "id" in
  Ok [("post_id", post_id); ("page_id", pid); ("post_created_time", created);
      ("name", name); ("period", period); ("title", title);
      ("description", description); ("id", id)].

(** [PostInsights.parse_response] *)
Definition post_insights_parse_response (pid resp_json : json) : gen :=
  glet (data_rows resp_json) (fun rows =>
  gfor rows (fun row =>
    glet (let* i := getitem row "insights" in let* d := getitem i "data" in py_iter d)
      (fun ins =>
    gfor ins (fun insights =>
      glet (post_insights_base_item pid row insights) (fun base_item =>
      glet (py_in "values" insights) (fun has_values =>
      if has_values then
        glet (let* v := getitem insights "values" in py_iter v) (fun vs =>
        gfor vs (post_insights_values_rows base_item))
      else gdone)))))).

(** Modelled from the spec: [Page] inherits [parse_response] from the SDK,
    which is not part of this repository; the spec says the response is the
    row, passed through. *)
Definition page_parse_response (resp_json : json) : gen := gyield resp_json.

Definition parse_response (s : stream) (pid resp_json : json) : gen :=
  match s with
  | Page => page_parse_response resp_json
  | Posts => posts_parse_response pid resp_json
  | PostTaggedProfile => post_tagged_profile_parse_response pid resp_json
  | PostAttachments => post_attachments_parse_response pid resp_json
  | PageInsights => page_insights_parse_response resp_json
  | PostInsights => post_insights_parse_response pid resp_json
  end.

(** *** The request log line of [prepare_request] *)

Definition is_alnum (a : ascii) : bool :=
  let n := nat_of_ascii a in
  ((48 <=? n)%nat && (n <=? 57)%nat) || ((65 <=? n)%nat && (n <=? 90)%nat)
  || ((97 <=? n)%nat && (n <=? 122)%nat).

(** The longest prefix of [[a-zA-Z0-9]] characters, and the rest. *)
Fixpoint span_alnum (s : string) : string * string :=
  match s with
  | String a s' =>
      if is_alnum a then let (r, t) := span_alnum s' in (String a r, t)
      else (EmptyString, s)
  | EmptyString => (EmptyString, EmptyString)
  end.

Fixpoint drop (n : nat) (s : string) : string :=
  match n, s with
  | S n', String _ s' => drop n' s'
  | _, _ => s
  end.

(** A match of [access_token=[a-zA-Z0-9]+&] at the start of [s]: the text
    after it.  The greedy [+] can only be followed by [&] at the end of the
    longest alphanumeric run. *)
Definition match_token (s : string) : option string :=
  if prefixb "access_token=" s then
    let (run, rest) := span_alnum (drop 13 s) in
    match run, rest with
    | String _ _, String "&" rest' => Some rest'
    | _, _ => None
    end
  else None.

Fixpoint redact_fuel (fuel : nat) (s : string) : string :=
  match fuel with
  | O => s
  | S f =>
      match s with
      | EmptyString => EmptyString
      | String a s' =>
          match match_token s with
          | Some rest => "access_token=*****&" ++ redact_fuel f rest
          | None => String a (redact_fuel f s')
          end
      end
  end.

(** [re.sub("access_token=[a-zA-Z0-9]+&", "access_token=*****&", s)]: a
    left-to-right scan; every step consumes at least one character. *)
Definition redact (s : string) : string := redact_fuel (String.length s) s.

(** The line [prepare_request] logs for the prepared URL [url]. *)
Definition prepare_request_log (url : string) : string := redact (unquote url).

(** *** [get_stream_or_partition_state]

    [stream_state] is [self.stream_state] and [partition_state] what the
    SDK's [get_partition_state(partition)] returns. *)
Definition get_stream_or_partition_state (stream_state partition_state partition : json)
    : res json :=
  let state := if truthy partition then partition_state else stream_state in
  let* has := py_in "progress_markers" state in
  if has then
    match state with
    | JDict d =>
        match dict_get "progress_markers" d with
        | Some (JList _) => Ok (JDict (dict_set "progress_markers" (JDict []) d))
        | _ => Ok state
        end
    | _ => Err AttributeError
    end
  else Ok state.

(** ** The pagination engine: [FacebookPagesStream.request_records] *)

(** A prepared request: the URL without its query, and the parameters. *)
Record request : Type := { req_url : string; req_params : dict }.

Inductive event : Type :=
| Fetch (r : request)   (* a request sent with [_request_with_backoff] *)
| Emit (row : json)     (* a row yielded *)
| Warn (e : exn).       (* an exception caught and logged *)

Inductive status : Type :=
| Done                  (* the loop ended *)
| Raised (e : exn)      (* an exception left the generator *)
| OutOfFuel.            (* still looping after the given number of iterations *)

Section Engine.
(** [prepare_request(partition, next_page_token=tok)] *)
Variable prepare : json -> res request.
(** [_request_with_backoff]: the server's response, after the retries. *)
Variable send : request -> res json.
(** [parse_response] *)
Variable parse : json -> gen.
(** [get_next_page_token(response, previous_token)] *)
Variable next_token : json -> json -> res json.

(** The [try] block for one page fetched with token [tok]: the rows
    yielded, the exception caught (if any), and [next_page_token] after it. *)
Definition page_step (tok : json) (r : request) : list json * option exn * json :=
  match send r with
  | Err e => ([], Some e, tok)
  | Ok resp =>
      let (rows, o) := parse resp in
      match o with
      | Some e => (rows, Some e, tok)
      | None =>
          let previous_token := tok in
          match next_token resp previous_token with
          | Err e => (rows, Some e, tok)
          | Ok n =>
              if truthy n && json_eqb n previous_token
              then (rows, Some RuntimeError, n)
              else (rows, None, n)
          end
      end
  end.

(** The [while not finished] loop, for at most [fuel] iterations;
    [prepare_request] is called outside the [try]. *)
Fixpoint request_records_from (fuel : nat) (tok : json) : list event * status :=
  match fuel with
  | O => ([], OutOfFuel)
  | S f =>
      match prepare tok with
      | Err e => ([], Raised e)
      | Ok r =>
          let '(rows, exc, next_page_token) := page_step tok r in
          let evs := Fetch r :: app (map Emit rows)
                       (match exc with Some e => [Warn e] | None => [] end) in
          let finished := negb (truthy next_page_token) in
          if finished then (evs, Done)
          else let (evs', st) := request_records_from f next_page_token in
               (app evs evs', st)
      end
  end.

Definition request_records (fuel : nat) : list event * status :=
  request_records_from fuel JNull.
End Engine.

(** [self.prepare_request] for stream [s]: the URL is [url_base + path] with
    the partition's page id put in, the parameters those of [get_url_params]. *)
Definition prepare_request (cfg : config) (s : stream) (now : Z) (starting : option Z)
    (partition tok : json) : res request :=
  let* params := get_url_params cfg s now starting partition tok in
  let* pid := getitem partition "page_id" in
  let* p := as_str pid in
  Ok {| req_url := "https://graph.facebook.com/v10.0/" ++ p ++ path s;
        req_params := params |}.

(** One run of [request_records(partition)] for stream [s] against a server
    [send], for at most [fuel] pages. *)
Definition run (cfg : config) (s : stream) (now : Z) (starting : option Z)
    (send : request -> res json) (partition : json) (fuel : nat) : list event * status :=
  let pid := match getitem partition "page_id" with Ok v => v | Err _ => JNull end in
  request_records (prepare_request cfg s now starting partition) send
    (parse_response s pid) (get_next_page_token s now) fuel.

(** *** [post_process] *)

(** [FacebookPagesStream.post_process] and [Page.post_process]. *)
Definition post_process (s : stream) (row partition : json) : res json :=
  match s with
  | Page => Ok row
  | _ =>
      let* has := py_in "page_id" partition in
      if has then
        let* v := getitem partition "page_id" in
        let* row' := setitem row "page_id" v in
        Ok (JDict row')
      else Ok row
  end.

(** ** Concrete inputs *)

Definition demo_cfg : config :=
  {| access_tokens := [("1", JStr "TOK")]; metrics := ["page_impressions"];
     columns := Some ["id"]; schema_keys := [] |}.

Definition demo_partition : json := JDict [("page_id", JStr "1")].

Definition demo_next_url : string :=
  "https://graph.facebook.com/v10.0/1/posts?access_token=TOK&limit=100&after=QVFH".

Definition demo_post : json := JDict [("id", JStr "p1")].

(** A server that answers every request with the same page, whose
    [paging.next] link is always [demo_next_url]. *)
Definition loop_server (_ : request) : res json :=
  Ok (JDict [("data", JList [demo_post]);
             ("paging", JDict [("next", JStr demo_next_url)])]).

(** A server that answers the first page, with a [paging.next] link, and
    fails (after its retries) on every request that carries the cursor. *)
Definition failing_server (r : request) : res json :=
  if dict_mem "after" r.(req_params) then Err HTTPError
  else loop_server r.

(** The two requests of these runs. *)
Definition first_request : request :=
  {| req_url := "https://graph.facebook.com/v10.0/1/posts";
     req_params := [("access_token", JStr "TOK"); ("limit", JInt 100); ("fields", JStr "id")] |}.

Definition next_request : request :=
  {| req_url := "https://graph.facebook.com/v10.0/1/posts";
     req_params := [("access_token", JList [JStr "TOK"]); ("limit", JList [JStr "100"]);
                    ("after", JList [JStr "QVFH"])] |}.

Definition demo_row : json := JDict [("id", JStr "p1"); ("page_id", JStr "1")].

(** * Properties *)

Lemma dict_get_set k k' v d :
  dict_get k (dict_set k' v d) = if String.eqb k k' then Some v else dict_get k d.
Proof.
  induction d as [|[k1 v1] t IH]; simpl.
  - reflexivity.
  - destruct (String.eqb k' k1) eqn:E1; simpl.
    + apply String.eqb_eq in E1; subst k1.
      destruct (String.eqb k k'); reflexivity.
    + rewrite IH. destruct (String.eqb k k') eqn:E2; [|reflexivity].
      apply String.eqb_eq in E2; subst k'. rewrite E1. reflexivity.
Qed.

(** Once a page fetched with a non-empty token [tok] leaves
    [next_page_token] at [tok] again, the loop requests that same page at
    every further iteration. *)
Lemma request_records_stuck prepare send parse next_token tok r rows exc :
  truthy tok = true ->
  prepare tok = Ok r ->
  page_step send parse next_token tok r = (rows, exc, tok) ->
  forall fuel,
    request_records_from prepare send parse next_token fuel tok =
    (concat (repeat (Fetch r :: app (map Emit rows)
                       (match exc with Some e => [Warn e] | None => [] end)) fuel),
     OutOfFuel).
Proof.
  intros Ht Hp Hs fuel; induction fuel as [|f IH]; simpl.
  - reflexivity.
  - rewrite Hp, Hs, Ht. simpl. rewrite IH. reflexivity.
Qed.

Example str_of_Z_ex : str_of_Z 1600000000 = "1600000000" /\ str_of_Z (-7) = "-7"
  /\ str_of_Z 0 = "0" /\ str_of_Z 10 = "10".
Proof. vm_compute. auto. Qed.

Example parse_int_ex : parse_int_str " 1_600 " = Some 1600 /\ parse_int_str "-12" = Some (-12)
  /\ parse_int_str "1__0" = None /\ parse_int_str "" = None.
Proof. vm_compute. auto. Qed.

Example parse_qs_ex :
  parse_qs (url_query "https://graph.facebook.com/v10.0/1/insights?since=10&until=20&metric=a%2Cb&x=&since=11#f")
  = [("since", JList [JStr "10"; JStr "11"]); ("until", JList [JStr "20"]); ("metric", JList [JStr "a,b"])].
Proof. vm_compute. reflexivity. Qed.


(** One iteration of the loop that does not finish. *)
Lemma request_records_continue prepare send parse next_token tok r rows exc n f :
  prepare tok = Ok r ->
  page_step send parse next_token tok r = (rows, exc, n) ->
  truthy n = true ->
  request_records_from prepare send parse next_token (S f) tok =
  (app (Fetch r :: app (map Emit rows)
          (match exc with Some e => [Warn e] | None => [] end))
       (fst (request_records_from prepare send parse next_token f n)),
   snd (request_records_from prepare send parse next_token f n)).
Proof.
  intros Hp Hs Hn. simpl. rewrite Hp, Hs, Hn. simpl.
  destruct (request_records_from prepare send parse next_token f n); reflexivity.
Qed.

(** C1 (code_bug).  The page fetched with the cursor [demo_next_url] comes
    back with [paging.next] equal to that cursor: the loop detection raises,
    its own [except] keeps [finished] false because [next_page_token] is
    still the cursor, and the same page is requested again at every
    iteration: the run never terminates. *)
Theorem pagination_loop_refetches_token : forall fuel,
  run demo_cfg Posts 0 None loop_server demo_partition (S fuel) =
  (Fetch first_request :: Emit demo_row
     :: concat (repeat [Fetch next_request; Emit demo_row; Warn RuntimeError] fuel),
   OutOfFuel).
Proof.
  intros fuel. unfold run, request_records.
  rewrite (request_records_continue _ _ _ _ JNull first_request [demo_row] None
             (JStr demo_next_url)); [| reflexivity | reflexivity | reflexivity].
  rewrite (request_records_stuck _ _ _ _ (JStr demo_next_url) next_request [demo_row]
             (Some RuntimeError)); [| reflexivity | reflexivity | reflexivity].
  reflexivity.
Qed.

(** C2 (code_bug).  A request failing on the second page is caught, but
    [finished = not next_page_token] reads the cursor of the failed page; the
    same failing request is sent again at every iteration instead of ending
    pagination. *)
Theorem page_failure_retries_forever : forall fuel,
  run demo_cfg Posts 0 None failing_server demo_partition (S fuel) =
  (Fetch first_request :: Emit demo_row
     :: concat (repeat [Fetch next_request; Warn HTTPError] fuel),
   OutOfFuel).
Proof.
  intros fuel. unfold run, request_records.
  rewrite (request_records_continue _ _ _ _ JNull first_request [demo_row] None
             (JStr demo_next_url)); [| reflexivity | reflexivity | reflexivity].
  rewrite (request_records_stuck _ _ _ _ (JStr demo_next_url) next_request []
             (Some HTTPError)); [| reflexivity | reflexivity | reflexivity].
  reflexivity.
Qed.

(** C10.  On a first PageInsights request for a partition with no starting
    timestamp, the base builder sets no [since], [PageInsights.get_url_params]
    raises [KeyError('since')], and since [prepare_request] runs outside the
    [try], the exception leaves [request_records] before any request is sent. *)
Theorem page_insights_no_since_aborts_run :
  forall cfg now send pid rest fuel,
  let partition := JDict (("page_id", JStr pid) :: rest) in
  get_url_params cfg PageInsights now None partition JNull = Err (KeyError "since") /\
  run cfg PageInsights now None send partition (S fuel) = ([], Raised (KeyError "since")).
Proof.
  intros cfg now send pid rest fuel partition.
  assert (H : get_url_params cfg PageInsights now None partition JNull = Err (KeyError "since")).
  { unfold get_url_params, page_insights_get_url_params, base_get_url_params, partition.
    simpl. destruct (dict_get pid (access_tokens cfg)); simpl; reflexivity. }
  split; [exact H|].
  unfold run, request_records. simpl request_records_from.
  unfold prepare_request. rewrite H. reflexivity.
Qed.

Lemma eqb_empty_false u : u <> EmptyString -> String.eqb u EmptyString = false.
Proof. intros H. apply String.eqb_neq. exact H. Qed.

Lemma base_params_token cfg starting p rest u :
  u <> EmptyString ->
  base_get_url_params cfg starting (JDict (("page_id", p) :: rest)) (JStr u) =
  Ok (parse_qs (url_query u)).
Proof.
  intros Hu. unfold base_get_url_params. simpl. rewrite (eqb_empty_false u Hu). reflexivity.
Qed.

(** The [PageInsights] parameters for a token whose [until] is [x :: xs]. *)
Lemma page_insights_params_token cfg now starting p rest u x xs n :
  u <> EmptyString ->
  dict_get "until" (parse_qs (url_query u)) = Some (JList (JStr x :: xs)) ->
  parse_int_str x = Some n ->
  get_url_params cfg PageInsights now starting (JDict (("page_id", p) :: rest)) (JStr u) =
  Ok (dict_set "metric" (JStr (join "," cfg.(metrics)))
        (if n >? now
         then dict_set "until" (JList (JStr (str_of_Z (now - 86400)) :: xs))
                (parse_qs (url_query u))
         else parse_qs (url_query u))).
Proof.
  intros Hu Hq Hn. unfold get_url_params, page_insights_get_url_params.
  rewrite (base_params_token cfg starting p rest u Hu). simpl.
  rewrite (eqb_empty_false u Hu). simpl. rewrite Hq. simpl. rewrite Hn. simpl.
  destruct (n >? now); reflexivity.
Qed.

(** C3 (corrected).  With a non-empty pagination token, the base builder and
    the Posts, PostTaggedProfile, PostAttachments and PostInsights builders
    return exactly [parse_qs] of the token's query string; the PageInsights
    builder returns those parameters with [until] set to [now - 86400] when it
    exceeds [now] and with [metric] set to the comma-joined metric list. *)
Theorem token_params_verbatim :
  forall cfg now starting p rest u,
  let partition := JDict (("page_id", p) :: rest) in
  u <> EmptyString ->
  base_get_url_params cfg starting partition (JStr u) = Ok (parse_qs (url_query u)) /\
  (forall s, In s [Posts; PostTaggedProfile; PostAttachments; PostInsights] ->
     get_url_params cfg s now starting partition (JStr u) = Ok (parse_qs (url_query u))) /\
  (forall x xs n,
     dict_get "until" (parse_qs (url_query u)) = Some (JList (JStr x :: xs)) ->
     parse_int_str x = Some n ->
     get_url_params cfg PageInsights now starting partition (JStr u) =
     Ok (dict_set "metric" (JStr (join "," cfg.(metrics)))
           (if n >? now
            then dict_set "until" (JList (JStr (str_of_Z (now - 86400)) :: xs))
                   (parse_qs (url_query u))
            else parse_qs (url_query u)))).
Proof.
  intros cfg now starting p rest u partition Hu.
  split; [|split].
  - apply base_params_token; exact Hu.
  - intros s Hs. unfold partition.
    simpl in Hs.
    destruct Hs as [<-|[<-|[<-|[<-|[]]]]]; unfold get_url_params;
      rewrite (base_params_token cfg starting p rest u Hu); simpl;
      rewrite (eqb_empty_false u Hu); reflexivity.
  - intros x xs n Hq Hn. exact (page_insights_params_token cfg now starting p rest u x xs n Hu Hq Hn).
Qed.

Definition demo_insights_url : string :=
  "https://graph.facebook.com/v10.0/1/insights?since=10&until=20".

(** C3: the PageInsights builder adds [metric] to the token's parameters. *)
Lemma token_params_verbatim_cex :
  get_url_params demo_cfg PageInsights 2000000000 None demo_partition (JStr demo_insights_url)
  <> Ok (parse_qs (url_query demo_insights_url)).
Proof. vm_compute. discriminate. Qed.

Lemma token_params_verbatim_witness :
  "https://graph.facebook.com/v10.0/1/insights?since=10&until=20" <> EmptyString /\
  base_get_url_params demo_cfg None (JDict [("page_id", JStr "1")]) (JStr demo_insights_url)
  = Ok (parse_qs (url_query demo_insights_url)).
Proof.
  split; [discriminate|].
  exact (proj1 (token_params_verbatim demo_cfg 2000000000 None (JStr "1") [] demo_insights_url
                  ltac:(discriminate))).
Defined.

(** C4.  The first PageInsights request for a stored cursor [since = T] has
    [until = T + 8035200] when that does not exceed [now], and
    [until = now - 86400] otherwise; with a token, the token's [until] is
    replaced by [now - 86400] when it exceeds [now] and kept otherwise. *)
Theorem page_insights_window_clamp :
  forall cfg now pid rest,
  let partition := JDict (("page_id", JStr pid) :: rest) in
  (forall T,
     exists params,
       get_url_params cfg PageInsights now (Some T) partition JNull = Ok params /\
       dict_get "since" params = Some (JInt T) /\
       dict_get "until" params =
       Some (JInt (if T + 8035200 <=? now then T + 8035200 else now - 86400))) /\
  (forall starting u x xs n,
     u <> EmptyString ->
     dict_get "until" (parse_qs (url_query u)) = Some (JList (JStr x :: xs)) ->
     parse_int_str x = Some n ->
     exists params,
       get_url_params cfg PageInsights now starting partition (JStr u) = Ok params /\
       dict_get "until" params =
       Some (JList ((if n >? now then JStr (str_of_Z (now - 86400)) else JStr x) :: xs))).
Proof.
  intros cfg now pid rest partition. split.
  - intros T. unfold get_url_params, page_insights_get_url_params, base_get_url_params, partition.
    simpl. destruct (dict_get pid (access_tokens cfg)); simpl;
      eexists; (split; [reflexivity|]); simpl; split; reflexivity.
  - intros starting u x xs n Hu Hq Hn. unfold partition.
    rewrite (page_insights_params_token cfg now starting (JStr pid) rest u x xs n Hu Hq Hn).
    eexists; split; [reflexivity|].
    rewrite dict_get_set. simpl.
    destruct (n >? now).
    + rewrite dict_get_set. reflexivity.
    + exact Hq.
Qed.

Lemma page_insights_window_clamp_witness :
  exists params,
    get_url_params demo_cfg PageInsights 1000 (Some 0) demo_partition (JStr demo_insights_url)
    = Ok params /\
    dict_get "until" params = Some (JList [JStr "20"]).
Proof.
  exact (proj2 (page_insights_window_clamp demo_cfg 1000 "1" [])
           (Some 0) demo_insights_url "20" [] 20 ltac:(discriminate) ltac:(reflexivity)
           ltac:(reflexivity)).
Defined.

(** C5.  A PageInsights response whose [paging.next] link carries [since]
    and [until] gives no token when [since >= now - 172800] or
    [now <= until <= now + 172800], and the link otherwise; a response with
    no [paging.next] gives no token. *)
Theorem page_insights_next_token_suppression :
  forall now prev,
  (forall d paging u s ss v vs since until,
     dict_get "paging" d = Some (JDict paging) ->
     dict_get "next" paging = Some (JStr u) ->
     dict_get "since" (parse_qs (url_query u)) = Some (JList (JStr s :: ss)) ->
     parse_int_str s = Some since ->
     dict_get "until" (parse_qs (url_query u)) = Some (JList (JStr v :: vs)) ->
     parse_int_str v = Some until ->
     get_next_page_token PageInsights now (JDict d) prev =
     Ok (if (since >=? now - 172800) || ((until >=? now) && (until <=? now + 172800))
         then JNull else JStr u)) /\
  (forall d,
     (dict_get "paging" d = None \/
      exists paging, dict_get "paging" d = Some (JDict paging) /\ dict_get "next" paging = None) ->
     get_next_page_token PageInsights now (JDict d) prev = Ok JNull).
Proof.
  intros now prev. split.
  - intros d paging u s ss v vs since until Hp Hn Hs Hsi Hu Hui.
    unfold get_next_page_token, page_insights_get_next_page_token, py_in, getitem, dict_mem.
    rewrite Hp. simpl. unfold dict_mem. rewrite Hn. simpl.
    rewrite Hs. simpl. rewrite Hsi. simpl. rewrite Hu. simpl. rewrite Hui. simpl.
    destruct ((since >=? now - 172800) || ((until >=? now) && (until <=? now + 172800)));
      reflexivity.
  - intros d [Hp | [paging [Hp Hn]]];
      unfold get_next_page_token, page_insights_get_next_page_token, py_in, getitem, dict_mem;
      rewrite Hp; simpl; [reflexivity|].
    unfold dict_mem. rewrite Hn. reflexivity.
Qed.

Definition stalled_next_url : string :=
  "https://graph.facebook.com/v10.0/1/insights?since=1999910000&until=2000000000&metric=m".

(** The spec's example: [since = now - 90000] suppresses the token. *)
Lemma page_insights_next_token_suppression_witness :
  get_next_page_token PageInsights 2000000000
    (JDict [("data", JList []); ("paging", JDict [("next", JStr stalled_next_url)])]) JNull
  = Ok JNull.
Proof.
  exact (proj1 (page_insights_next_token_suppression 2000000000 JNull)
           [("data", JList []); ("paging", JDict [("next", JStr stalled_next_url)])]
           [("next", JStr stalled_next_url)] stalled_next_url
           "1999910000" [] "2000000000" [] 1999910000 2000000000
           eq_refl eq_refl ltac:(vm_compute; reflexivity) ltac:(vm_compute; reflexivity)
           ltac:(vm_compute; reflexivity) ltac:(vm_compute; reflexivity)).
Defined.

(** Dict literals of three keys, updated into a dict. *)
Lemma dict_get_update3 k d k1 v1 k2 v2 k3 v3 :
  dict_get k (dict_update d [(k1, v1); (k2, v2); (k3, v3)]) =
  if String.eqb k k3 then Some v3 else if String.eqb k k2 then Some v2
  else if String.eqb k k1 then Some v1 else dict_get k d.
Proof. unfold dict_update. simpl. rewrite !dict_get_set. reflexivity. Qed.

Lemma gfor_tag_and_yield info subs :
  gfor (map JDict subs) (tag_and_yield info) =
  (map (fun s => JDict (dict_update s info)) subs, None).
Proof.
  induction subs as [|s t IH]; simpl; [reflexivity|].
  rewrite IH. reflexivity.
Qed.

Lemma attachment_rows_sub info a sa subs :
  dict_get "subattachments" a = Some (JDict sa) ->
  dict_get "data" sa = Some (JList (map JDict subs)) ->
  attachment_rows info (JDict a) =
  (app (map (fun s => JDict (dict_update s info)) subs)
       [JDict (dict_update (filter (fun kv => negb (String.eqb (fst kv) "subattachments")) a)
                 info)], None).
Proof.
  intros Ha Hs. unfold attachment_rows, py_in, dict_mem. rewrite Ha. simpl.
  rewrite Ha. simpl. rewrite Hs. simpl. rewrite gfor_tag_and_yield.
  unfold py_pop, dict_pop, dict_mem. rewrite Ha. reflexivity.
Qed.

Lemma dict_get_filter_self k d :
  dict_get k (filter (fun kv => negb (String.eqb (fst kv) k)) d) = None.
Proof.
  induction d as [|[k' v] t IH]; simpl; [reflexivity|].
  destruct (String.eqb k' k) eqn:E; simpl.
  - exact IH.
  - rewrite String.eqb_sym, E. exact IH.
Qed.

(** C6.  An attachment with [subattachments.data] yields each
    sub-attachment, then the attachment without its [subattachments] key,
    all tagged with the post's [page_id], [post_id] and [post_created_time];
    for a response of one post with one such attachment these are all the
    rows, one more than the sub-attachments (three for two). *)
Theorem post_attachments_nested_explosion :
  (forall info a sa subs,
     dict_get "subattachments" a = Some (JDict sa) ->
     dict_get "data" sa = Some (JList (map JDict subs)) ->
     attachment_rows info (JDict a) =
     (app (map (fun s => JDict (dict_update s info)) subs)
          [JDict (dict_update (filter (fun kv => negb (String.eqb (fst kv) "subattachments")) a)
                    info)], None)) /\
  (forall pid r post i c att a sa subs,
     dict_get "data" r = Some (JList [JDict post]) ->
     dict_get "id" post = Some i ->
     dict_get "created_time" post = Some c ->
     dict_get "attachments" post = Some (JDict att) ->
     dict_get "data" att = Some (JList [JDict a]) ->
     dict_get "subattachments" a = Some (JDict sa) ->
     dict_get "data" sa = Some (JList (map JDict subs)) ->
     let info := [("page_id", pid); ("post_id", i); ("post_created_time", c)] in
     let parent := filter (fun kv => negb (String.eqb (fst kv) "subattachments")) a in
     let rows := app (map (fun s => JDict (dict_update s info)) subs)
                     [JDict (dict_update parent info)] in
     post_attachments_parse_response pid (JDict r) = (rows, None) /\
     length rows = S (length subs) /\
     Forall (fun row => exists d, row = JDict d /\
               dict_get "page_id" d = Some pid /\ dict_get "post_id" d = Some i /\
               dict_get "post_created_time" d = Some c) rows /\
     dict_get "subattachments" (dict_update parent info) = None).
Proof.
  split.
  - exact attachment_rows_sub.
  - intros pid r post i c att a sa subs Hd Hi Hc Hatt Had Ha Hs info parent rows.
    split; [|split; [|split]].
    + unfold post_attachments_parse_response, data_rows, getitem. rewrite Hd. simpl.
      unfold parent_info, getitem. rewrite Hi, Hc. simpl.
      unfold py_in, dict_mem. rewrite Hatt. simpl. rewrite Had. simpl.
      rewrite (attachment_rows_sub _ a sa subs Ha Hs). simpl.
      rewrite !app_nil_r. reflexivity.
    + unfold rows. rewrite length_app, length_map. simpl. rewrite Nat.add_1_r. reflexivity.
    + unfold rows. apply Forall_app. split.
      * apply Forall_forall. intros row Hrow. apply in_map_iff in Hrow.
        destruct Hrow as [s [<- _]]. exists (dict_update s info).
        unfold info. rewrite !dict_get_update3. simpl. auto.
      * constructor; [|constructor].
        exists (dict_update parent info).
        unfold info. rewrite !dict_get_update3. simpl. auto.
    + unfold info, parent. rewrite dict_get_update3. simpl. apply dict_get_filter_self.
Qed.

Definition two_sub_response : json :=
  JDict [("data", JList [JDict [("id", JStr "p1"); ("created_time", JStr "2021-01-01");
    ("attachments", JDict [("data", JList [JDict [("type", JStr "album");
      ("subattachments", JDict [("data", JList [JDict [("type", JStr "photo"); ("url", JStr "u1")];
                                                 JDict [("type", JStr "photo"); ("url", JStr "u2")]])])]])])]])].

Lemma post_attachments_nested_explosion_witness :
  length (fst (post_attachments_parse_response (JStr "1") two_sub_response)) = 3%nat.
Proof.
  destruct (proj2 post_attachments_nested_explosion (JStr "1")
     [("data", JList [JDict [("id", JStr "p1"); ("created_time", JStr "2021-01-01");
       ("attachments", JDict [("data", JList [JDict [("type", JStr "album");
         ("subattachments", JDict [("data", JList [JDict [("type", JStr "photo"); ("url", JStr "u1")];
                                                    JDict [("type", JStr "photo"); ("url", JStr "u2")]])])]])])]])]
     [("id", JStr "p1"); ("created_time", JStr "2021-01-01");
       ("attachments", JDict [("data", JList [JDict [("type", JStr "album");
         ("subattachments", JDict [("data", JList [JDict [("type", JStr "photo"); ("url", JStr "u1")];
                                                    JDict [("type", JStr "photo"); ("url", JStr "u2")]])])]])])]
     (JStr "p1") (JStr "2021-01-01")
     [("data", JList [JDict [("type", JStr "album");
         ("subattachments", JDict [("data", JList [JDict [("type", JStr "photo"); ("url", JStr "u1")];
                                                    JDict [("type", JStr "photo"); ("url", JStr "u2")]])])]])]
     [("type", JStr "album");
      ("subattachments", JDict [("data", JList [JDict [("type", JStr "photo"); ("url", JStr "u1")];
                                                 JDict [("type", JStr "photo"); ("url", JStr "u2")]])])]
     [("data", JList [JDict [("type", JStr "photo"); ("url", JStr "u1")];
                      JDict [("type", JStr "photo"); ("url", JStr "u2")]])]
     [[("type", JStr "photo"); ("url", JStr "u1")]; [("type", JStr "photo"); ("url", JStr "u2")]]
     eq_refl eq_refl eq_refl eq_refl eq_refl eq_refl eq_refl) as [H [Hl _]].
  unfold two_sub_response. rewrite H. exact Hl.
Defined.

Lemma gfor_yields {A} (l : list A) (body : A -> gen) (f : A -> json) :
  (forall x, body x = gyield (f x)) -> gfor l body = (map f l, None).
Proof.
  intros H. induction l as [|x t IH]; simpl; [reflexivity|].
  rewrite H, IH. reflexivity.
Qed.

Lemma gseq_done (xs : list json) : gseq (xs, None) gdone = (xs, None).
Proof. simpl. rewrite app_nil_r. reflexivity. Qed.

(** C7 (corrected), PageInsights.  For a metric row with [name], [period],
    [title], [id] and one [values] entry: a mapping [value] yields one row per
    key, in order, with [context], [value], [end_time] and the metadata; any
    other [value] yields the single row [entry.update(metadata)], which keeps
    the value and has a [context] key exactly when the entry had one. *)
Lemma page_insights_values_explosion r row n p t id e :
  dict_get "data" r = Some (JList [JDict row]) ->
  dict_get "name" row = Some n -> dict_get "period" row = Some p ->
  dict_get "title" row = Some t -> dict_get "id" row = Some id ->
  dict_get "values" row = Some (JList [JDict e]) ->
  let base := [("name", n); ("period", p); ("title", t); ("id", id)] in
  (forall kvs et,
     dict_get "value" e = Some (JDict kvs) -> dict_get "end_time" e = Some et ->
     page_insights_parse_response (JDict r) =
     (map (fun kv => JDict [("context", JStr (fst kv)); ("value", snd kv); ("end_time", et);
                            ("name", n); ("period", p); ("title", t); ("id", id)]) kvs, None)) /\
  (forall v,
     dict_get "value" e = Some v -> (forall kvs, v <> JDict kvs) ->
     page_insights_parse_response (JDict r) = ([JDict (dict_update e base)], None) /\
     dict_get "value" (dict_update e base) = Some v /\
     dict_get "context" (dict_update e base) = dict_get "context" e).
Proof.
  intros Hd Hn Hp Ht Hid Hv base.
  assert (Hpre : forall g,
    page_insights_values_rows base (JDict e) = g ->
    page_insights_parse_response (JDict r) = gseq (gseq g gdone) gdone).
  { intros g Hg. unfold page_insights_parse_response, data_rows, getitem.
    rewrite Hd. simpl. rewrite Hn, Hp, Ht, Hid. simpl.
    unfold py_in, dict_mem. rewrite Hv. simpl. rewrite <- Hg. reflexivity. }
  split.
  - intros kvs et Hval Het. rewrite (Hpre (map (fun kv => JDict [("context", JStr (fst kv));
        ("value", snd kv); ("end_time", et); ("name", n); ("period", p); ("title", t);
        ("id", id)]) kvs, None)).
    + rewrite !gseq_done. reflexivity.
    + unfold page_insights_values_rows, getitem. rewrite Hval. simpl.
      apply gfor_yields. intros kv. rewrite Het. reflexivity.
  - intros v Hval Hnd. split; [|split].
    + rewrite (Hpre ([JDict (dict_update e base)], None)); [reflexivity|].
      unfold page_insights_values_rows, getitem. rewrite Hval.
      destruct v; try reflexivity. exfalso. exact (Hnd d eq_refl).
    + unfold base, dict_update. simpl. rewrite !dict_get_set. simpl. exact Hval.
    + unfold base, dict_update. simpl. rewrite !dict_get_set. simpl. reflexivity.
Qed.

(** The same for PostInsights: one post with [id] and [created_time], one
    insight metric with [name], [period], [title], [description] and [id],
    one [values] entry; mapping rows carry no [end_time]. *)
Lemma post_insights_values_explosion pid r row i c ins insights n p t ds id e :
  dict_get "data" r = Some (JList [JDict row]) ->
  dict_get "id" row = Some i -> dict_get "created_time" row = Some c ->
  dict_get "insights" row = Some (JDict ins) ->
  dict_get "data" ins = Some (JList [JDict insights]) ->
  dict_get "name" insights = Some n -> dict_get "period" insights = Some p ->
  dict_get "title" insights = Some t -> dict_get "description" insights = Some ds ->
  dict_get "id" insights = Some id ->
  dict_get "values" insights = Some (JList [JDict e]) ->
  let base := [("post_id", i); ("page_id", pid); ("post_created_time", c);
               ("name", n); ("period", p); ("title", t); ("description", ds); ("id", id)] in
  (forall kvs,
     dict_get "value" e = Some (JDict kvs) ->
     post_insights_parse_response pid (JDict r) =
     (map (fun kv => JDict [("context", JStr (fst kv)); ("value", snd kv);
                            ("post_id", i); ("page_id", pid); ("post_created_time", c);
                            ("name", n); ("period", p); ("title", t);
                            ("description", ds); ("id", id)]) kvs, None)) /\
  (forall v,
     dict_get "value" e = Some v -> (forall kvs, v <> JDict kvs) ->
     post_insights_parse_response pid (JDict r) = ([JDict (dict_update e base)], None) /\
     dict_get "value" (dict_update e base) = Some v /\
     dict_get "context" (dict_update e base) = dict_get "context" e).
Proof.
  intros Hd Hi Hc Hins Hid0 Hn Hp Ht Hds Hid Hv base.
  assert (Hpre : forall g,
    post_insights_values_rows base (JDict e) = g ->
    post_insights_parse_response pid (JDict r) = gseq (gseq (gseq g gdone) gdone) gdone).
  { intros g Hg. unfold post_insights_parse_response, data_rows, getitem.
    rewrite Hd. simpl. rewrite Hins. simpl. rewrite Hid0. simpl.
    unfold post_insights_base_item, getitem. rewrite Hi, Hc, Hn, Hp, Ht, Hds, Hid. simpl.
    unfold py_in, dict_mem. rewrite Hv. simpl. rewrite <- Hg. reflexivity. }
  split.
  - intros kvs Hval. rewrite (Hpre (map (fun kv => JDict [("context", JStr (fst kv));
        ("value", snd kv); ("post_id", i); ("page_id", pid); ("post_created_time", c);
        ("name", n); ("period", p); ("title", t); ("description", ds); ("id", id)]) kvs, None)).
    + rewrite !gseq_done. reflexivity.
    + unfold post_insights_values_rows, getitem. rewrite Hval. simpl.
      apply gfor_yields. intros kv. reflexivity.
  - intros v Hval Hnd. split; [|split].
    + rewrite (Hpre ([JDict (dict_update e base)], None)); [reflexivity|].
      unfold post_insights_values_rows, getitem. rewrite Hval.
      destruct v; try reflexivity. exfalso. exact (Hnd d eq_refl).
    + unfold base, dict_update. simpl. rewrite !dict_get_set. simpl. exact Hval.
    + unfold base, dict_update. simpl. rewrite !dict_get_set. simpl. reflexivity.
Qed.

(** C7 (corrected).  A values entry whose [value] is a mapping yields one
    row per key with [context], [value] and the metric metadata (PageInsights
    carrying [end_time]; PostInsights adding [description], [post_id],
    [page_id], [post_created_time]); any other [value] yields exactly one row,
    the entry merged with the metadata, holding that value and adding no
    [context] key of its own. *)
Theorem insights_values_explosion :
  (forall r row n p t id e,
     dict_get "data" r = Some (JList [JDict row]) ->
     dict_get "name" row = Some n -> dict_get "period" row = Some p ->
     dict_get "title" row = Some t -> dict_get "id" row = Some id ->
     dict_get "values" row = Some (JList [JDict e]) ->
     let base := [("name", n); ("period", p); ("title", t); ("id", id)] in
     (forall kvs et,
        dict_get "value" e = Some (JDict kvs) -> dict_get "end_time" e = Some et ->
        page_insights_parse_response (JDict r) =
        (map (fun kv => JDict [("context", JStr (fst kv)); ("value", snd kv); ("end_time", et);
                               ("name", n); ("period", p); ("title", t); ("id", id)]) kvs,
         None)) /\
     (forall v,
        dict_get "value" e = Some v -> (forall kvs, v <> JDict kvs) ->
        page_insights_parse_response (JDict r) = ([JDict (dict_update e base)], None) /\
        dict_get "value" (dict_update e base) = Some v /\
        dict_get "context" (dict_update e base) = dict_get "context" e)) /\
  (forall pid r row i c ins insights n p t ds id e,
     dict_get "data" r = Some (JList [JDict row]) ->
     dict_get "id" row = Some i -> dict_get "created_time" row = Some c ->
     dict_get "insights" row = Some (JDict ins) ->
     dict_get "data" ins = Some (JList [JDict insights]) ->
     dict_get "name" insights = Some n -> dict_get "period" insights = Some p ->
     dict_get "title" insights = Some t -> dict_get "description" insights = Some ds ->
     dict_get "id" insights = Some id ->
     dict_get "values" insights = Some (JList [JDict e]) ->
     let base := [("post_id", i); ("page_id", pid); ("post_created_time", c);
                  ("name", n); ("period", p); ("title", t); ("description", ds); ("id", id)] in
     (forall kvs,
        dict_get "value" e = Some (JDict kvs) ->
        post_insights_parse_response pid (JDict r) =
        (map (fun kv => JDict [("context", JStr (fst kv)); ("value", snd kv);
                               ("post_id", i); ("page_id", pid); ("post_created_time", c);
                               ("name", n); ("period", p); ("title", t);
                               ("description", ds); ("id", id)]) kvs, None)) /\
     (forall v,
        dict_get "value" e = Some v -> (forall kvs, v <> JDict kvs) ->
        post_insights_parse_response pid (JDict r) = ([JDict (dict_update e base)], None) /\
        dict_get "value" (dict_update e base) = Some v /\
        dict_get "context" (dict_update e base) = dict_get "context" e)).
Proof.
  split.
  - exact page_insights_values_explosion.
  - exact post_insights_values_explosion.
Qed.

Definition insight_metric (values : json) : json :=
  JDict [("data", JList [JDict [("name", JStr "page_fans"); ("period", JStr "day");
                                ("title", JStr "Fans"); ("id", JStr "1/insights/page_fans/day");
                                ("values", JList [values])]])].

(** The spec's example: [value = 7] yields one row with [value = 7] and no
    [context]. *)
Lemma insights_values_explosion_witness :
  page_insights_parse_response
    (insight_metric (JDict [("value", JInt 7); ("end_time", JStr "2021-01-02")])) =
  ([JDict [("value", JInt 7); ("end_time", JStr "2021-01-02"); ("name", JStr "page_fans");
           ("period", JStr "day"); ("title", JStr "Fans");
           ("id", JStr "1/insights/page_fans/day")]], None).
Proof.
  exact (proj1 (proj2 (proj1 insights_values_explosion
     [("data", JList [JDict [("name", JStr "page_fans"); ("period", JStr "day");
                             ("title", JStr "Fans"); ("id", JStr "1/insights/page_fans/day");
                             ("values", JList [JDict [("value", JInt 7);
                                                      ("end_time", JStr "2021-01-02")]])]])]
     [("name", JStr "page_fans"); ("period", JStr "day");
      ("title", JStr "Fans"); ("id", JStr "1/insights/page_fans/day");
      ("values", JList [JDict [("value", JInt 7); ("end_time", JStr "2021-01-02")]])]
     (JStr "page_fans") (JStr "day") (JStr "Fans") (JStr "1/insights/page_fans/day")
     [("value", JInt 7); ("end_time", JStr "2021-01-02")]
     eq_refl eq_refl eq_refl eq_refl eq_refl eq_refl)
     (JInt 7) eq_refl ltac:(discriminate))).
Defined.

(** C7: a scalar values entry that carries its own [context] key yields a
    row with that [context] key. *)
Lemma insights_values_explosion_cex :
  page_insights_parse_response
    (insight_metric (JDict [("value", JInt 7); ("context", JStr "x");
                            ("end_time", JStr "2021-01-02")])) =
  ([JDict [("value", JInt 7); ("context", JStr "x"); ("end_time", JStr "2021-01-02");
           ("name", JStr "page_fans"); ("period", JStr "day"); ("title", JStr "Fans");
           ("id", JStr "1/insights/page_fans/day")]], None).
Proof. vm_compute. reflexivity. Qed.

(** C8 (code_bug).  The redaction pattern needs an [&] after the token: an
    [access_token] that ends the query string is logged in clear, while one
    followed by another parameter is masked. *)
Theorem log_leaks_trailing_access_token :
  substrb "ABCD1234"
    (prepare_request_log "https://graph.facebook.com/v10.0/1/posts?limit=100&access_token=ABCD1234")
  = true /\
  prepare_request_log "https://graph.facebook.com/v10.0/1/posts?access_token=ABCD1234&limit=100"
  = "https://graph.facebook.com/v10.0/1/posts?access_token=*****&limit=100".
Proof. split; vm_compute; reflexivity. Qed.

(** C9 (corrected).  When the state's [progress_markers] is a list it is
    reset to [{}]; any other value, and a missing key, leave the state as it
    is. *)
Theorem progress_markers_reset :
  forall stream_state partition_state partition d,
  (if truthy partition then partition_state else stream_state) = JDict d ->
  (forall l, dict_get "progress_markers" d = Some (JList l) ->
     get_stream_or_partition_state stream_state partition_state partition =
     Ok (JDict (dict_set "progress_markers" (JDict []) d)) /\
     dict_get "progress_markers" (dict_set "progress_markers" (JDict []) d) = Some (JDict [])) /\
  (forall v, dict_get "progress_markers" d = Some v -> (forall l, v <> JList l) ->
     get_stream_or_partition_state stream_state partition_state partition = Ok (JDict d)) /\
  (dict_get "progress_markers" d = None ->
     get_stream_or_partition_state stream_state partition_state partition = Ok (JDict d)).
Proof.
  intros ss ps part d Hs. unfold get_stream_or_partition_state. rewrite Hs.
  unfold py_in, dict_mem. split; [|split].
  - intros l Hl. rewrite Hl. simpl. split; [reflexivity|].
    rewrite dict_get_set. reflexivity.
  - intros v Hv Hnl. rewrite Hv. simpl.
    destruct v; try reflexivity. exfalso. exact (Hnl l eq_refl).
  - intros Hn. rewrite Hn. reflexivity.
Qed.

Lemma progress_markers_reset_witness :
  get_stream_or_partition_state (JDict [("progress_markers", JList [JStr "legacy"])]) JNull JNull
  = Ok (JDict [("progress_markers", JDict [])]).
Proof.
  exact (proj1 (proj1 (progress_markers_reset
     (JDict [("progress_markers", JList [JStr "legacy"])]) JNull JNull
     [("progress_markers", JList [JStr "legacy"])] eq_refl) [JStr "legacy"] eq_refl)).
Defined.

(** C9: a string [progress_markers] is kept, not reset to a mapping. *)
Lemma progress_markers_reset_cex :
  get_stream_or_partition_state (JDict [("progress_markers", JStr "legacy")]) JNull JNull
  = Ok (JDict [("progress_markers", JStr "legacy")]).
Proof. vm_compute. reflexivity. Qed.

(** ** Further properties of the code *)

(** *** [int(str(n)) = n] *)

Lemma rev_str_rev_str s acc b :
  rev_str (rev_str s acc) b = rev_str acc (s ++ b).
Proof.
  revert acc. induction s as [|a s IH]; intros acc; simpl; [reflexivity|].
  rewrite IH. reflexivity.
Qed.

Lemma append_empty_r s : (s ++ EmptyString)%string = s.
Proof. induction s as [|a s IH]; simpl; [reflexivity|rewrite IH; reflexivity]. Qed.

Fixpoint no_space (s : string) : bool :=
  match s with
  | EmptyString => true
  | String a s' => negb (is_space a) && no_space s'
  end.

Lemma lstrip_no_space s : no_space s = true -> lstrip s = s.
Proof.
  destruct s as [|a s]; simpl; [reflexivity|].
  intros H. apply andb_prop in H as [H _]. destruct (is_space a); [discriminate|reflexivity].
Qed.

Lemma no_space_rev_str s acc :
  no_space s = true -> no_space acc = true -> no_space (rev_str s acc) = true.
Proof.
  revert acc. induction s as [|a s IH]; intros acc Hs Hacc; simpl in *; [exact Hacc|].
  apply andb_prop in Hs as [Ha Hs]. apply IH; [exact Hs|]. simpl. rewrite Ha, Hacc. reflexivity.
Qed.

Lemma strip_no_space s : no_space s = true -> strip s = s.
Proof.
  intros H. unfold strip. rewrite (lstrip_no_space s H).
  rewrite (lstrip_no_space (rev_str s EmptyString)).
  - rewrite rev_str_rev_str. simpl. apply append_empty_r.
  - apply no_space_rev_str; [exact H|reflexivity].
Qed.

Lemma digit_char d :
  (0 <= d < 10)%Z ->
  is_digit (ascii_of_nat (Z.to_nat d + 48)) = true /\
  is_space (ascii_of_nat (Z.to_nat d + 48)) = false /\
  Z.of_nat (nat_of_ascii (ascii_of_nat (Z.to_nat d + 48)) - 48) = d.
Proof.
  intros Hd. rewrite nat_ascii_embedding by lia.
  unfold is_digit, is_space. rewrite nat_ascii_embedding by lia.
  repeat split.
  - apply andb_true_intro; split; apply Nat.leb_le; lia.
  - apply Bool.orb_false_intro.
    + apply Nat.eqb_neq. lia.
    + apply andb_false_intro2. apply Nat.leb_gt. lia.
  - lia.
Qed.

Lemma digits_pos_S f n acc :
  digits_pos (S f) n acc =
  if n <? 10 then String (ascii_of_nat (Z.to_nat (n mod 10) + 48)) acc
  else digits_pos f (n / 10) (String (ascii_of_nat (Z.to_nat (n mod 10) + 48)) acc).
Proof. reflexivity. Qed.

(** [digits_pos] writes the decimal digits of [n] in front of [acc]. *)
Lemma read_digits_pos f : forall n acc a pd,
  0 <= n < 10 ^ Z.of_nat (S f) ->
  exists k : nat,
    read_digits (digits_pos (S f) n acc) a pd =
    read_digits acc (a * 10 ^ Z.of_nat (S k) + n) true /\
    no_space (digits_pos (S f) n acc) = no_space acc.
Proof.
  induction f as [|f IH]; intros n acc a pd Hn;
    destruct (digit_char (n mod 10)) as [Hdig [Hsp Hval]];
    try (apply Z.mod_pos_bound; lia);
    rewrite digits_pos_S; destruct (n <? 10) eqn:Hlt.
  - apply Z.ltb_lt in Hlt. exists 0%nat. cbn [read_digits no_space].
    rewrite Hdig, Hsp, Hval, (Z.mod_small n 10) by lia.
    change (10 ^ Z.of_nat 1) with 10. split; [f_equal; lia|reflexivity].
  - apply Z.ltb_ge in Hlt. simpl in Hn. lia.
  - apply Z.ltb_lt in Hlt. exists 0%nat. cbn [read_digits no_space].
    rewrite Hdig, Hsp, Hval, (Z.mod_small n 10) by lia.
    change (10 ^ Z.of_nat 1) with 10. split; [f_equal; lia|reflexivity].
  - apply Z.ltb_ge in Hlt.
    destruct (IH (n / 10) (String (ascii_of_nat (Z.to_nat (n mod 10) + 48)) acc) a pd)
      as [k [Hk Hns]].
    { split; [apply Z.div_pos; lia|].
      apply Z.div_lt_upper_bound; [lia|].
      replace (Z.of_nat (S (S f))) with (Z.of_nat (S f) + 1) in Hn by lia.
      rewrite Z.pow_add_r in Hn by lia. lia. }
    exists (S k). rewrite Hk, Hns. cbn [read_digits no_space].
    rewrite Hdig, Hsp, Hval. split; [|reflexivity]. f_equal.
    replace (Z.of_nat (S (S k))) with (Z.of_nat (S k) + 1) by lia.
    rewrite Z.pow_add_r by lia.
    pose proof (Z.div_mod n 10 ltac:(lia)) as Hdm.
    remember (10 ^ Z.of_nat (S k)) as P. rewrite Z.pow_1_r. nia.
Qed.

Lemma pow2_le_pow10 k : 0 <= k -> 2 ^ k <= 10 ^ k.
Proof. intros Hk. apply Z.pow_le_mono_l. lia. Qed.

Lemma digits_fuel_enough n :
  0 <= n -> 0 <= n < 10 ^ Z.of_nat (S (Z.to_nat (Z.log2 n))).
Proof.
  intros Hn. split; [exact Hn|].
  replace (Z.of_nat (S (Z.to_nat (Z.log2 n)))) with (Z.succ (Z.log2 n))
    by (pose proof (Z.log2_nonneg n); lia).
  destruct (Z.eq_dec n 0) as [->|Hn0]; [simpl; lia|].
  pose proof (Z.log2_spec n ltac:(lia)) as [_ H].
  pose proof (pow2_le_pow10 (Z.succ (Z.log2 n)) ltac:(pose proof (Z.log2_nonneg n); lia)).
  lia.
Qed.

Lemma parse_int_str_digits s z :
  no_space s = true -> read_digits s 0 false = Some z -> parse_int_str s = Some z.
Proof.
  intros Hns H. unfold parse_int_str. rewrite (strip_no_space s Hns).
  destruct s as [|c t]; [exact H|].
  destruct c as [[] [] [] [] [] [] [] []]; try exact H; simpl in H; discriminate H.
Qed.

Lemma parse_int_str_minus s :
  no_space s = true ->
  parse_int_str (String "-" s) = option_map Z.opp (read_digits s 0 false).
Proof.
  intros Hns. unfold parse_int_str. rewrite strip_no_space; [reflexivity|].
  change (negb (is_space "-") && no_space s = true). rewrite Hns. reflexivity.
Qed.

(** Python's [int(str(z)) == z]. *)
Lemma parse_int_str_of_Z z : parse_int_str (str_of_Z z) = Some z.
Proof.
  unfold str_of_Z.
  destruct (z <? 0) eqn:Hz.
  - apply Z.ltb_lt in Hz.
    replace (Z.to_nat (Z.log2 (- z)) + 1)%nat with (S (Z.to_nat (Z.log2 (- z)))) by lia.
    destruct (read_digits_pos (Z.to_nat (Z.log2 (- z))) (- z) EmptyString 0 false
                (digits_fuel_enough (- z) ltac:(lia))) as [k [Hk Hns]].
    rewrite parse_int_str_minus by (rewrite Hns; reflexivity).
    rewrite Hk. simpl. f_equal. lia.
  - apply Z.ltb_ge in Hz.
    replace (Z.to_nat (Z.log2 z) + 1)%nat with (S (Z.to_nat (Z.log2 z))) by lia.
    destruct (read_digits_pos (Z.to_nat (Z.log2 z)) z EmptyString 0 false
                (digits_fuel_enough z Hz)) as [k [Hk Hns]].
    apply parse_int_str_digits; [rewrite Hns; reflexivity|].
    rewrite Hk. simpl. reflexivity.
Qed.

(** *** Request parameters *)

Lemma base_first_params :
  forall cfg starting pid rest k,
  exists params,
    base_get_url_params cfg starting (JDict (("page_id", JStr pid) :: rest)) JNull = Ok params /\
    dict_get k params =
    if String.eqb k "limit" then Some (JInt 100)
    else if String.eqb k "access_token" then dict_get pid cfg.(access_tokens)
    else if String.eqb k "since" then option_map JInt starting
    else None.
Proof.
  intros cfg starting pid rest k. unfold base_get_url_params. simpl.
  eexists; split; [reflexivity|].
  rewrite dict_get_set.
  destruct (String.eqb_spec k "limit") as [->|Hl]; [reflexivity|].
  destruct (dict_get pid (access_tokens cfg)) as [v|];
    [rewrite dict_get_set; destruct (String.eqb_spec k "access_token") as [->|Ha]; [reflexivity|]|];
    destruct starting as [ts|]; simpl;
    try (destruct (String.eqb_spec k "access_token") as [->|Ha]; [reflexivity|]);
    destruct (String.eqb_spec k "since") as [->|Hs]; reflexivity.
Qed.

(** The first request (no token) carries [limit=100], [since] exactly when
    the SDK gave a starting timestamp, [access_token] exactly when the page
    has one in the table, and nothing else. *)
Theorem base_first_request_params :
  forall cfg starting pid rest k,
  exists params,
    base_get_url_params cfg starting (JDict (("page_id", JStr pid) :: rest)) JNull = Ok params /\
    dict_get k params =
    if String.eqb k "limit" then Some (JInt 100)
    else if String.eqb k "access_token" then dict_get pid cfg.(access_tokens)
    else if String.eqb k "since" then option_map JInt starting
    else None.
Proof. exact base_first_params. Qed.

(** The [fields] each stream asks for on its first request. *)
Definition first_fields (cfg : config) (s : stream) : option string :=
  match s with
  | Page | Posts => Some (fields_list cfg)
  | PostTaggedProfile => Some "id,created_time,to"
  | PostAttachments => Some "id,created_time,attachments"
  | PostInsights => Some ("id,created_time,insights.metric(" ++ join "," cfg.(metrics) ++ ")")
  | PageInsights => None
  end.

(** Every stream but PageInsights adds [fields] (Page and Posts from
    [config['columns']] when it is set, else the schema's properties) to the
    base parameters of its first request, and changes nothing else. *)
Theorem first_request_fields :
  forall cfg s now starting pid rest f,
  first_fields cfg s = Some f ->
  exists base,
    base_get_url_params cfg starting (JDict (("page_id", JStr pid) :: rest)) JNull = Ok base /\
    get_url_params cfg s now starting (JDict (("page_id", JStr pid) :: rest)) JNull =
    Ok (dict_set "fields" (JStr f) base).
Proof.
  intros cfg s now starting pid rest f Hf.
  destruct (base_first_params cfg starting pid rest "limit") as [base [Hb _]].
  exists base. split; [exact Hb|].
  destruct s; simpl in Hf; try discriminate; injection Hf as <-;
    unfold get_url_params; rewrite Hb; reflexivity.
Qed.

Lemma first_request_fields_witness :
  first_fields demo_cfg Posts = Some "id" /\
  exists base,
    base_get_url_params demo_cfg None (JDict [("page_id", JStr "1")]) JNull = Ok base /\
    get_url_params demo_cfg Posts 0 None (JDict [("page_id", JStr "1")]) JNull =
    Ok (dict_set "fields" (JStr "id") base).
Proof.
  split; [reflexivity|].
  exact (first_request_fields demo_cfg Posts 0 None "1" [] "id" eq_refl).
Defined.

(** Page adds [fields] also to the parameters parsed from a token. *)
Theorem page_token_params_add_fields :
  forall cfg now starting p rest u,
  u <> EmptyString ->
  get_url_params cfg Page now starting (JDict (("page_id", p) :: rest)) (JStr u) =
  Ok (dict_set "fields" (JStr (fields_list cfg)) (parse_qs (url_query u))).
Proof.
  intros cfg now starting p rest u Hu. unfold get_url_params.
  rewrite (base_params_token cfg starting p rest u Hu). reflexivity.
Qed.

Lemma page_token_params_add_fields_witness :
  get_url_params demo_cfg Page 0 None demo_partition (JStr demo_next_url) =
  Ok (dict_set "fields" (JStr "id") (parse_qs (url_query demo_next_url))).
Proof. exact (page_token_params_add_fields demo_cfg 0 None (JStr "1") [] demo_next_url
                ltac:(discriminate)). Defined.

Lemma bind_ok {A B} (m : res A) (f : A -> res B) b :
  bind m f = Ok b -> exists a, m = Ok a /\ f a = Ok b.
Proof. destruct m as [a|e]; simpl; [eauto|discriminate]. Qed.

(** Every value [parse_qs] produces is a non-empty list of strings. *)
Definition qs_shape (d : dict) : Prop :=
  forall k v, dict_get k d = Some v -> exists x xs, v = JList (JStr x :: map JStr xs).

Lemma parse_qs_shape qs : qs_shape (parse_qs qs).
Proof.
  unfold parse_qs. generalize (parse_qsl qs) as l.
  assert (H0 : qs_shape []) by (intros k v H; discriminate).
  revert H0. generalize (@nil (string * json)) as acc.
  intros acc Hacc l. revert acc Hacc.
  induction l as [|[n w] l IH]; intros acc Hacc; simpl; [exact Hacc|].
  apply IH. intros k v Hk.
  destruct (dict_get n acc) as [[| | | | vs |]|] eqn:En;
    rewrite dict_get_set in Hk;
    (destruct (String.eqb k n) eqn:Ekn; [apply String.eqb_eq in Ekn; subst k|now apply (Hacc k v)]);
    injection Hk as <-; try (now exists w, []).
  destruct (Hacc n _ En) as [x [xs Hv]]. injection Hv as ->.
  exists x, (app xs [w]). rewrite map_app. reflexivity.
Qed.



(** *** Response parsers *)

Lemma gseq_assoc g1 g2 g3 : gseq (gseq g1 g2) g3 = gseq g1 (gseq g2 g3).
Proof.
  destruct g1 as [xs [e|]]; simpl; [reflexivity|].
  destruct g2 as [ys [e|]]; simpl; [reflexivity|].
  destruct g3 as [zs o]. rewrite app_assoc. reflexivity.
Qed.

Lemma gfor_map {A B} (f : A -> B) (l : list A) body :
  gfor (map f l) body = gfor l (fun x => body (f x)).
Proof. induction l as [|x t IH]; simpl; [reflexivity|]. rewrite IH. reflexivity. Qed.

Lemma gfor_app {A} (l1 l2 : list A) body :
  gfor (app l1 l2) body = gseq (gfor l1 body) (gfor l2 body).
Proof.
  induction l1 as [|x t IH]; simpl.
  - destruct (gfor l2 body). reflexivity.
  - rewrite IH, gseq_assoc. reflexivity.
Qed.

Lemma posts_parse_rows :
  forall pid d ds,
  dict_get "data" d = Some (JList (map JDict ds)) ->
  posts_parse_response pid (JDict d) =
  (map (fun r => JDict (dict_set "page_id" pid r)) ds, None).
Proof.
  intros pid d ds Hd. unfold posts_parse_response, data_rows. simpl. rewrite Hd. simpl.
  rewrite gfor_map. apply gfor_yields. intros r. reflexivity.
Qed.

(** Posts: a row of [data] that is not a dict ends the generator with a
    [TypeError], after the rows before it have been yielded. *)
Theorem posts_parse_response_non_dict_row :
  forall pid d ds x more,
  (forall r, x <> JDict r) ->
  dict_get "data" d = Some (JList (app (map JDict ds) (x :: more))) ->
  posts_parse_response pid (JDict d) =
  (map (fun r => JDict (dict_set "page_id" pid r)) ds, Some TypeError).
Proof.
  intros pid d ds x more Hx Hd. unfold posts_parse_response, data_rows. simpl. rewrite Hd.
  simpl. rewrite gfor_app, gfor_map.
  rewrite (gfor_yields _ _ (fun r => JDict (dict_set "page_id" pid r))) by reflexivity.
  simpl. destruct x; simpl; try (rewrite app_nil_r; reflexivity). exfalso. exact (Hx _ eq_refl).
Qed.

Lemma posts_parse_response_non_dict_row_witness :
  (forall r, JInt 7 <> JDict r) /\
  posts_parse_response (JStr "1") (JDict [("data", JList [JDict []; JInt 7; JDict []])]) =
  ([JDict [("page_id", JStr "1")]], Some TypeError).
Proof.
  split; [intros r; discriminate|].
  exact (posts_parse_response_non_dict_row (JStr "1") [("data", JList [JDict []; JInt 7; JDict []])]
           [[]] (JInt 7) [JDict []] (fun r => ltac:(discriminate)) eq_refl).
Defined.

(** PostTaggedProfile: for a post with [id], [created_time] and [to], each
    tagged profile of [to.data] is yielded, in order, updated with the
    post's [page_id], [post_id] and [post_created_time]. *)
Theorem post_tagged_profile_rows :
  forall pid d p i c t tags,
  dict_get "data" d = Some (JList [JDict p]) ->
  dict_get "id" p = Some i ->
  dict_get "created_time" p = Some c ->
  dict_get "to" p = Some (JDict t) ->
  dict_get "data" t = Some (JList (map JDict tags)) ->
  post_tagged_profile_parse_response pid (JDict d) =
  (map (fun x => JDict (dict_update x [("page_id", pid); ("post_id", i);
                                       ("post_created_time", c)])) tags, None).
Proof.
  intros pid d p i c t tags Hd Hi Hc Ht Htd.
  unfold post_tagged_profile_parse_response, data_rows, parent_info, py_in, dict_mem.
  simpl. rewrite Hd. simpl. rewrite Hi. simpl. rewrite Hc. simpl. rewrite Ht. simpl.
  rewrite Htd. simpl. rewrite gfor_tag_and_yield. apply gseq_done.
Qed.

Lemma post_tagged_profile_rows_witness :
  post_tagged_profile_parse_response (JStr "1")
    (JDict [("data", JList [JDict [("id", JStr "p"); ("created_time", JInt 5);
                                   ("to", JDict [("data", JList [JDict [("id", JStr "u")]])])]])]) =
  ([JDict [("id", JStr "u"); ("page_id", JStr "1"); ("post_id", JStr "p");
           ("post_created_time", JInt 5)]], None).
Proof.
  eapply (post_tagged_profile_rows (JStr "1") _ _ (JStr "p") (JInt 5) _ [[("id", JStr "u")]]);
    reflexivity.
Defined.

(** PostTaggedProfile: posts that have [id] and [created_time] but no [to]
    yield nothing. *)
Theorem post_tagged_profile_untagged :
  forall pid d ps,
  dict_get "data" d = Some (JList (map JDict ps)) ->
  (forall p, In p ps ->
     dict_get "to" p = None /\ dict_get "id" p <> None /\ dict_get "created_time" p <> None) ->
  post_tagged_profile_parse_response pid (JDict d) = ([], None).
Proof.
  intros pid d ps Hd Hps.
  unfold post_tagged_profile_parse_response, data_rows. simpl. rewrite Hd. simpl.
  rewrite gfor_map. clear Hd. revert Hps.
  induction ps as [|p ps IH]; intros Hps; [reflexivity|].
  destruct (Hps p (or_introl eq_refl)) as [Ht [Hi Hc]].
  cbn [gfor]. rewrite IH by (intros q Hq; apply Hps; right; exact Hq).
  unfold parent_info, py_in, dict_mem. simpl.
  destruct (dict_get "id" p) as [i|]; [|congruence].
  destruct (dict_get "created_time" p) as [c|]; [|congruence].
  simpl. rewrite Ht. reflexivity.
Qed.

Lemma post_tagged_profile_untagged_witness :
  post_tagged_profile_parse_response (JStr "1")
    (JDict [("data", JList [JDict [("id", JStr "p"); ("created_time", JInt 5)]])]) = ([], None).
Proof.
  eapply (post_tagged_profile_untagged (JStr "1") _ [[("id", JStr "p"); ("created_time", JInt 5)]]);
    [reflexivity|].
  intros p [<-|[]]. split; [reflexivity|]. split; discriminate.
Defined.

(** PostTaggedProfile: a post without [id] raises [KeyError('id')] before
    anything of it is yielded, whether it has tagged profiles or not. *)
Theorem post_tagged_profile_missing_id :
  forall pid d p more,
  dict_get "data" d = Some (JList (JDict p :: more)) ->
  dict_get "id" p = None ->
  post_tagged_profile_parse_response pid (JDict d) = ([], Some (KeyError "id")).
Proof.
  intros pid d p more Hd Hi.
  unfold post_tagged_profile_parse_response, data_rows, parent_info.
  simpl. rewrite Hd. simpl. rewrite Hi. reflexivity.
Qed.

Lemma post_tagged_profile_missing_id_witness :
  post_tagged_profile_parse_response (JStr "1")
    (JDict [("data", JList [JDict [("created_time", JInt 5)]])]) = ([], Some (KeyError "id")).
Proof. eapply (post_tagged_profile_missing_id (JStr "1") _ _ []); reflexivity. Defined.

Lemma gfor_attachment_rows_flat info atts :
  (forall x, In x atts -> dict_get "subattachments" x = None) ->
  gfor (map JDict atts) (attachment_rows info) =
  (map (fun x => JDict (dict_update x info)) atts, None).
Proof.
  induction atts as [|x t IH]; intros Hsub; [reflexivity|]. simpl.
  unfold attachment_rows at 1, py_in, dict_mem. rewrite (Hsub x (or_introl eq_refl)). simpl.
  rewrite IH; [reflexivity|]. intros y Hy. apply Hsub. right. exact Hy.
Qed.

(** PostAttachments: for a post with [id], [created_time] and attachments
    none of which has [subattachments], each attachment is yielded, in
    order, updated with the post's [page_id], [post_id] and
    [post_created_time]. *)
Theorem post_attachments_flat_rows :
  forall pid d p i c a atts,
  dict_get "data" d = Some (JList [JDict p]) ->
  dict_get "id" p = Some i ->
  dict_get "created_time" p = Some c ->
  dict_get "attachments" p = Some (JDict a) ->
  dict_get "data" a = Some (JList (map JDict atts)) ->
  (forall x, In x atts -> dict_get "subattachments" x = None) ->
  post_attachments_parse_response pid (JDict d) =
  (map (fun x => JDict (dict_update x [("page_id", pid); ("post_id", i);
                                       ("post_created_time", c)])) atts, None).
Proof.
  intros pid d p i c a atts Hd Hi Hc Ha Had Hsub.
  unfold post_attachments_parse_response, data_rows, parent_info, py_in, dict_mem.
  simpl. rewrite Hd. simpl. rewrite Hi. simpl. rewrite Hc. simpl. rewrite Ha. simpl.
  rewrite Had. simpl. rewrite (gfor_attachment_rows_flat _ _ Hsub). apply gseq_done.
Qed.

Lemma post_attachments_flat_rows_witness :
  post_attachments_parse_response (JStr "1")
    (JDict [("data", JList [JDict [("id", JStr "p"); ("created_time", JInt 5);
       ("attachments", JDict [("data", JList [JDict [("type", JStr "photo")]])])]])]) =
  ([JDict [("type", JStr "photo"); ("page_id", JStr "1"); ("post_id", JStr "p");
           ("post_created_time", JInt 5)]], None).
Proof.
  eapply (post_attachments_flat_rows (JStr "1") _ _ (JStr "p") (JInt 5) _ [[("type", JStr "photo")]]);
    try reflexivity.
  intros x [<-|[]]. reflexivity.
Defined.

(** PageInsights: a metric row with [name], [period], [title] and [id] but
    no [values] yields nothing; a row missing [title] raises
    [KeyError('title')]. *)
Theorem page_insights_row_edges :
  forall d row more n p i,
  dict_get "data" d = Some (JList (JDict row :: more)) ->
  dict_get "name" row = Some n ->
  dict_get "period" row = Some p ->
  dict_get "id" row = Some i ->
  (dict_get "title" row = None ->
   page_insights_parse_response (JDict d) = ([], Some (KeyError "title"))) /\
  (forall t, dict_get "title" row = Some t -> dict_get "values" row = None ->
   page_insights_parse_response (JDict d) = page_insights_parse_response
     (JDict [("data", JList more)])).
Proof.
  intros d row more n p i Hd Hn Hp Hi.
  unfold page_insights_parse_response, data_rows. simpl. rewrite Hd. simpl.
  rewrite Hn, Hp. simpl. split.
  - intros Ht. rewrite Ht. reflexivity.
  - intros t Ht Hv. rewrite Ht. simpl. rewrite Hi. simpl.
    unfold py_in, dict_mem. rewrite Hv. simpl. destruct (gfor more _). reflexivity.
Qed.

Lemma page_insights_row_edges_witness :
  let row := [("name", JStr "page_fans"); ("period", JStr "day"); ("id", JStr "x")] in
  (dict_get "title" row = None ->
   page_insights_parse_response (JDict [("data", JList [JDict row])]) =
   ([], Some (KeyError "title"))) /\
  (forall t, dict_get "title" row = Some t -> dict_get "values" row = None ->
   page_insights_parse_response (JDict [("data", JList [JDict row])]) =
   page_insights_parse_response (JDict [("data", JList [])])).
Proof.
  intros row.
  exact (page_insights_row_edges [("data", JList [JDict row])] row [] _ _ _
           eq_refl eq_refl eq_refl eq_refl).
Defined.

(** PageInsights: a [values] entry whose [value] is an empty mapping yields
    nothing and never reads [end_time]; one whose [value] is a non-empty
    mapping but that has no [end_time] raises [KeyError('end_time')] before
    yielding anything. *)
Theorem page_insights_mapping_end_time :
  forall base values kvs,
  dict_get "value" values = Some (JDict kvs) ->
  dict_get "end_time" values = None ->
  page_insights_values_rows base (JDict values) =
  match kvs with [] => ([], None) | _ => ([], Some (KeyError "end_time")) end.
Proof.
  intros base values kvs Hv He. unfold page_insights_values_rows. simpl. rewrite Hv. simpl.
  destruct kvs as [|kv kvs]; simpl; [reflexivity|]. rewrite He. reflexivity.
Qed.

Lemma page_insights_mapping_end_time_witness :
  page_insights_values_rows [] (JDict [("value", JDict [("US", JInt 3)])]) =
  ([], Some (KeyError "end_time")) /\
  page_insights_values_rows [] (JDict [("value", JDict [])]) = ([], None).
Proof.
  split.
  - exact (page_insights_mapping_end_time [] [("value", JDict [("US", JInt 3)])] _ eq_refl eq_refl).
  - exact (page_insights_mapping_end_time [] [("value", JDict [])] [] eq_refl eq_refl).
Defined.

(** PostInsights: a post without [insights] raises [KeyError('insights')]
    before anything of it is yielded. *)
Theorem post_insights_missing_insights :
  forall pid d p more,
  dict_get "data" d = Some (JList (JDict p :: more)) ->
  dict_get "insights" p = None ->
  post_insights_parse_response pid (JDict d) = ([], Some (KeyError "insights")).
Proof.
  intros pid d p more Hd Hi. unfold post_insights_parse_response, data_rows.
  simpl. rewrite Hd. simpl. rewrite Hi. reflexivity.
Qed.

Lemma post_insights_missing_insights_witness :
  post_insights_parse_response (JStr "1") (JDict [("data", JList [JDict [("id", JStr "p")]])]) =
  ([], Some (KeyError "insights")).
Proof. eapply (post_insights_missing_insights (JStr "1") _ _ []); reflexivity. Defined.

(** A response without [data] raises [KeyError('data')] in every parser
    of this repository, before anything is yielded. *)
Theorem parse_response_missing_data :
  forall s pid d,
  s <> Page ->
  dict_get "data" d = None ->
  parse_response s pid (JDict d) = ([], Some (KeyError "data")).
Proof.
  intros s pid d Hs Hd. destruct s; [congruence| | | | |];
    simpl; unfold posts_parse_response, post_tagged_profile_parse_response,
    post_attachments_parse_response, page_insights_parse_response,
    post_insights_parse_response, data_rows; simpl; rewrite Hd; reflexivity.
Qed.

Lemma parse_response_missing_data_witness :
  parse_response PostInsights (JStr "1") (JDict [("error", JStr "x")]) =
  ([], Some (KeyError "data")).
Proof.
  exact (parse_response_missing_data PostInsights (JStr "1") [("error", JStr "x")]
           ltac:(discriminate) eq_refl).
Defined.

(** *** Next-page tokens *)

(** PageInsights: a [paging.next] link whose query has no [since] raises
    [KeyError('since')]; the engine catches it and stops paginating. *)
Theorem page_insights_next_without_since :
  forall now d pg u,
  dict_get "paging" d = Some (JDict pg) ->
  dict_get "next" pg = Some (JStr u) ->
  dict_get "since" (parse_qs (url_query u)) = None ->
  page_insights_get_next_page_token now (JDict d) = Err (KeyError "since").
Proof.
  intros now d pg u Hp Hn Hs.
  unfold page_insights_get_next_page_token, py_in, getitem, dict_mem. simpl.
  rewrite Hp. simpl. rewrite Hn. simpl. rewrite Hs. reflexivity.
Qed.

Lemma page_insights_next_without_since_witness :
  page_insights_get_next_page_token 0
    (JDict [("paging", JDict [("next", JStr "https://x/insights?until=5")])]) =
  Err (KeyError "since").
Proof. eapply page_insights_next_without_since; [reflexivity|reflexivity|vm_compute; reflexivity]. Defined.

(** *** The request log line *)

Lemma drop_length n s : (String.length (drop n s) <= String.length s)%nat.
Proof.
  revert s; induction n as [|n IH]; intros [|a s]; simpl; try lia.
  specialize (IH s). lia.
Qed.

Lemma span_alnum_length s r t :
  span_alnum s = (r, t) -> (String.length r + String.length t = String.length s)%nat.
Proof.
  revert r t; induction s as [|a s IH]; intros r t H; simpl in H.
  - injection H as <- <-. reflexivity.
  - destruct (is_alnum a).
    + destruct (span_alnum s) as [r' t'] eqn:E. injection H as <- <-.
      simpl. rewrite (IH r' t' eq_refl). reflexivity.
    + injection H as <- <-. reflexivity.
Qed.

Lemma match_token_shorter s rest :
  match_token s = Some rest -> (String.length rest < String.length s)%nat.
Proof.
  unfold match_token. destruct (prefixb "access_token=" s); [|discriminate].
  destruct (span_alnum (drop 13 s)) as [run t] eqn:E.
  destruct run as [|a run]; [discriminate|].
  destruct t as [|b t]; [discriminate|].
  destruct (Ascii.eqb_spec b "&") as [->|Hb]; [|destruct b as [[] [] [] [] [] [] [] []]; try discriminate; congruence].
  intros H. injection H as <-.
  pose proof (span_alnum_length _ _ _ E). pose proof (drop_length 13 s). simpl in *. lia.
Qed.

(** The scan gives the same result with any fuel at least the length. *)
Lemma redact_fuel_enough f1 f2 s :
  (String.length s <= f1)%nat -> (String.length s <= f2)%nat -> redact_fuel f1 s = redact_fuel f2 s.
Proof.
  revert f2 s; induction f1 as [|f1 IH]; intros f2 s H1 H2.
  - destruct s; simpl in H1; [|lia]. destruct f2; reflexivity.
  - destruct f2 as [|f2]; [destruct s; simpl in H2; [reflexivity|lia]|].
    destruct s as [|a s']; simpl; [reflexivity|].
    destruct (match_token (String a s')) as [rest|] eqn:E.
    + pose proof (match_token_shorter _ _ E). simpl in H. simpl in H1, H2.
      rewrite (IH f2 rest) by lia. reflexivity.
    + simpl in H1, H2. rewrite (IH f2 s') by lia. reflexivity.
Qed.

Lemma redact_fuel_no_token f s :
  substrb "access_token=" s = false -> redact_fuel f s = s.
Proof.
  revert s; induction f as [|f IH]; intros s H; [reflexivity|].
  destruct s as [|a s']; [reflexivity|]. simpl in H.
  apply orb_false_iff in H as [Hp Hs].
  cbn [redact_fuel]. unfold match_token. simpl prefixb at 1. rewrite Hp.
  rewrite IH by exact Hs. reflexivity.
Qed.

(** When the unquoted URL does not contain [access_token=], the request is
    logged as the unquoted URL, unchanged. *)
Theorem prepare_request_log_no_token :
  forall url,
  substrb "access_token=" (unquote url) = false ->
  prepare_request_log url = unquote url.
Proof. intros url H. apply redact_fuel_no_token. exact H. Qed.

Lemma prepare_request_log_no_token_witness :
  substrb "access_token=" (unquote "https://graph.facebook.com/v10.0/1/posts?limit=100") = false /\
  prepare_request_log "https://graph.facebook.com/v10.0/1/posts?limit=100" =
  unquote "https://graph.facebook.com/v10.0/1/posts?limit=100".
Proof.
  split; [vm_compute; reflexivity|].
  apply prepare_request_log_no_token. vm_compute. reflexivity.
Defined.

Lemma span_alnum_amp tok rest :
  span_alnum tok = (tok, EmptyString) ->
  span_alnum (tok ++ String "&" rest) = (tok, String "&" rest).
Proof.
  induction tok as [|a tok IH]; intros H; simpl in *; [reflexivity|].
  destruct (is_alnum a); [|discriminate].
  destruct (span_alnum tok) as [r t] eqn:E. injection H as Hr Ht. subst r t.
  rewrite (IH eq_refl). reflexivity.
Qed.

(** An [access_token=<token>&] at the start of a string, with a non-empty
    alphanumeric token, is replaced by [access_token=*****&], and the scan
    goes on after the [&]. *)
Theorem redact_leading_token :
  forall tok rest,
  tok <> EmptyString ->
  span_alnum tok = (tok, EmptyString) ->
  redact ("access_token=" ++ tok ++ String "&" rest) =
  "access_token=*****&" ++ redact rest.
Proof.
  intros tok rest Hne Hs.
  assert (Hm : match_token ("access_token=" ++ tok ++ String "&" rest) = Some rest).
  { unfold match_token. simpl. rewrite (span_alnum_amp tok rest Hs).
    destruct tok; [congruence|reflexivity]. }
  unfold redact. remember ("access_token=" ++ tok ++ String "&" rest) as s eqn:Es.
  pose proof (match_token_shorter _ _ Hm) as Hlt.
  destruct s as [|a s']; [discriminate|]. simpl String.length at 1.
  cbn [redact_fuel]. rewrite Hm. f_equal.
  apply redact_fuel_enough; simpl in Hlt; lia.
Qed.

Lemma redact_leading_token_witness :
  redact ("access_token=" ++ "EAAB12" ++ String "&" "limit=100") =
  "access_token=*****&" ++ redact "limit=100".
Proof. apply redact_leading_token; [discriminate|reflexivity]. Defined.

(** *** [post_process] *)

(** Every stream but Page sets the row's [page_id] to the partition's when
    the partition has one, and leaves every other key of the row as it was;
    Page returns the row unchanged. *)
Theorem post_process_page_id :
  forall s row pd,
  s <> Page ->
  exists row',
    post_process s (JDict row) (JDict pd) = Ok (JDict row') /\
    dict_get "page_id" row' =
      match dict_get "page_id" pd with Some v => Some v | None => dict_get "page_id" row end /\
    (forall k, k <> "page_id"%string -> dict_get k row' = dict_get k row).
Proof.
  intros s row pd Hs.
  assert (E : post_process s (JDict row) (JDict pd) =
              Ok (JDict match dict_get "page_id" pd with
                        | Some v => dict_set "page_id" v row | None => row end)).
  { destruct s; [congruence| | | | |]; unfold post_process, py_in, getitem, dict_mem; simpl;
      destruct (dict_get "page_id" pd); reflexivity. }
  eexists; split; [exact E|]. split.
  - destruct (dict_get "page_id" pd); [|reflexivity]. rewrite dict_get_set. reflexivity.
  - intros k Hk. destruct (dict_get "page_id" pd); [|reflexivity].
    rewrite dict_get_set. apply String.eqb_neq in Hk. rewrite Hk. reflexivity.
Qed.

Lemma post_process_page_id_witness :
  exists row',
    post_process Posts (JDict [("id", JStr "p1")]) (JDict [("page_id", JStr "1")]) = Ok (JDict row') /\
    dict_get "page_id" row' =
      match dict_get "page_id" [("page_id", JStr "1")] with
      | Some v => Some v | None => dict_get "page_id" [("id", JStr "p1")] end /\
    (forall k, k <> "page_id"%string -> dict_get k row' = dict_get k [("id", JStr "p1")]).
Proof. exact (post_process_page_id Posts [("id", JStr "p1")] _ ltac:(discriminate)). Defined.

(** *** The pagination engine *)

(** An exception on the first page (the request failing, [parse_response]
    raising, or [get_next_page_token] raising) is logged and ends the run:
    the rows yielded before it are kept and no second request is sent. *)
Theorem first_page_exception_ends_run :
  forall prepare send parse next_token r rows e f,
  prepare JNull = Ok r ->
  ((send r = Err e /\ rows = []) \/
   (exists resp, send r = Ok resp /\ parse resp = (rows, Some e)) \/
   (exists resp, send r = Ok resp /\ parse resp = (rows, None) /\
                 next_token resp JNull = Err e)) ->
  request_records prepare send parse next_token (S f) =
  (Fetch r :: app (map Emit rows) [Warn e], Done).
Proof.
  intros prepare send parse next_token r rows e f Hp Hcase.
  unfold request_records. cbn [request_records_from]. rewrite Hp. unfold page_step.
  destruct Hcase as [[Hs ->]|[[resp [Hs Hr]]|[resp [Hs [Hr Hn]]]]]; rewrite Hs;
    [reflexivity|rewrite Hr; reflexivity|rewrite Hr, Hn; reflexivity].
Qed.

Lemma first_page_exception_ends_run_witness :
  request_records (fun _ => Ok first_request) (fun _ => Err HTTPError) (fun _ => gdone)
    (fun _ _ => Ok JNull) 5 = ([Fetch first_request; Warn HTTPError], Done).
Proof.
  apply (first_page_exception_ends_run _ _ _ _ first_request [] HTTPError 4 eq_refl).
  left. split; reflexivity.
Defined.

(** A Posts run whose server answers a response without [paging] sends
    exactly one request, the first-request parameters, and yields every
    row of [data] in order with [page_id] set, then ends. *)
Theorem posts_single_page_run :
  forall cfg now starting pid rest send d ds f,
  (forall r, send r = Ok (JDict d)) ->
  dict_get "data" d = Some (JList (map JDict ds)) ->
  dict_get "paging" d = None ->
  exists r,
    prepare_request cfg Posts now starting (JDict (("page_id", JStr pid) :: rest)) JNull = Ok r /\
    r.(req_url) = ("https://graph.facebook.com/v10.0/" ++ pid ++ "/posts")%string /\
    run cfg Posts now starting send (JDict (("page_id", JStr pid) :: rest)) (S f) =
    (Fetch r :: map (fun x => Emit (JDict (dict_set "page_id" (JStr pid) x))) ds, Done).
Proof.
  intros cfg now starting pid rest send d ds f Hs Hd Hpg.
  destruct (base_first_params cfg starting pid rest "limit") as [base [Hb _]].
  assert (Hprep : prepare_request cfg Posts now starting (JDict (("page_id", JStr pid) :: rest)) JNull =
                  Ok {| req_url := "https://graph.facebook.com/v10.0/" ++ pid ++ "/posts";
                        req_params := dict_set "fields" (JStr (fields_list cfg)) base |}).
  { unfold prepare_request, get_url_params. rewrite Hb. reflexivity. }
  eexists; split; [exact Hprep|split; [reflexivity|]].
  unfold run. simpl getitem. cbv match. unfold request_records. cbn [request_records_from].
  rewrite Hprep. unfold page_step. rewrite Hs. cbn [parse_response].
  rewrite (posts_parse_rows (JStr pid) d ds Hd).
  unfold get_next_page_token, base_get_next_page_token, py_in, dict_mem. simpl.
  rewrite Hpg. simpl. rewrite app_nil_r, map_map. reflexivity.
Qed.

Lemma posts_single_page_run_witness :
  exists r,
    prepare_request demo_cfg Posts 0 None demo_partition JNull = Ok r /\
    r.(req_url) = ("https://graph.facebook.com/v10.0/" ++ "1" ++ "/posts")%string /\
    run demo_cfg Posts 0 None (fun _ => Ok (JDict [("data", JList [JDict [("id", JStr "p1")]])]))
      demo_partition 3 =
    (Fetch r :: map (fun x => Emit (JDict (dict_set "page_id" (JStr "1") x))) [[("id", JStr "p1")]], Done).
Proof.
  exact (posts_single_page_run demo_cfg 0 None "1" [] _ [("data", JList [JDict [("id", JStr "p1")]])]
           [[("id", JStr "p1")]] 2 (fun _ => eq_refl) eq_refl eq_refl).
Defined.

(** A partition without [page_id] raises [KeyError('page_id')] from
    [prepare_request], before any request is sent, for every stream. *)
Theorem missing_page_id_raises :
  forall cfg s now starting send pd f,
  dict_get "page_id" pd = None ->
  run cfg s now starting send (JDict pd) (S f) = ([], Raised (KeyError "page_id")).
Proof.
  intros cfg s now starting send pd f Hp.
  unfold run, request_records. cbn [request_records_from].
  unfold prepare_request, get_url_params, page_insights_get_url_params, base_get_url_params.
  simpl getitem. rewrite Hp. destruct s; reflexivity.
Qed.

Lemma missing_page_id_raises_witness :
  run demo_cfg PageInsights 0 None (fun _ => Err HTTPError) (JDict [("id", JStr "1")]) 1 =
  ([], Raised (KeyError "page_id")).
Proof. exact (missing_page_id_raises demo_cfg PageInsights 0 None _ [("id", JStr "1")] 0 eq_refl). Defined.
